(** * k0sctl: logging hooks and configuration source lookup (cmd/flags.go)

    A shallow embedding of the logging setup and of [configReader] of
    [cmd/flags.go], with the properties of its specification proved over it.

    Conventions of the embedding:
    - a logrus [Level] is the [uint32] it is in Go, here an [N];
    - a Go [error] is the text of its [Error()] method;
    - a Go result pair [(value, error)] returned by a function of
      [flags.go] is a pair of options ([None] is Go's [nil]);
    - effects go through a small state monad over a [World] (the process
      wide variables the code assigns, and the log of the calls it makes to
      the operating system); what the operating system answers is read
      from an [Env]. *)

From Stdlib Require Import NArith List Bool Lia.
From stdpp Require Import base option list gmap strings.
Import ListNotations.

Local Open Scope N_scope.

(** ** logrus: levels

    [github.com/sirupsen/logrus] is a dependency; [flags.go] uses its level
    constants and the table [AllLevels].  They are declared in logrus as
    [const ( PanicLevel Level = iota; FatalLevel; ErrorLevel; WarnLevel;
    InfoLevel; DebugLevel; TraceLevel )] over [type Level uint32]. *)

Module logrus.

Abbreviation Level := N (only parsing).

Definition PanicLevel : Level := 0.
Definition FatalLevel : Level := 1.
Definition ErrorLevel : Level := 2.
Definition WarnLevel  : Level := 3.
Definition InfoLevel  : Level := 4.
Definition DebugLevel : Level := 5.
Definition TraceLevel : Level := 6.

Definition AllLevels : list Level :=
  [PanicLevel; FatalLevel; ErrorLevel; WarnLevel; InfoLevel; DebugLevel; TraceLevel].

(** The fields of [logrus.TextFormatter] that [flags.go] sets; a field a
    composite literal leaves out has Go's zero value. *)
Record TextFormatter := {
  ForceColors : bool;
  DisableTimestamp : bool;
  FullTimestamp : bool;
  TimestampFormat : string;
  DisableLevelTruncation : bool
}.

Record Entry := {
  entry_Time : string;
  entry_Level : Level;
  entry_Message : string
}.

End logrus.
Import logrus.

(** The six severities the specification orders,
    Fatal < Error < Warning < Info < Debug < Trace. *)
Definition severities : list Level :=
  [FatalLevel; ErrorLevel; WarnLevel; InfoLevel; DebugLevel; TraceLevel].

(** The characters [fmt] verbs of the source spell with a backslash. *)
Definition dquote : string := String (Ascii.ascii_of_N 34) EmptyString.
Definition newline : string := String (Ascii.ascii_of_N 10) EmptyString.

(** [time.RFC822] *)
Definition RFC822 : string := "02 Jan 06 15:04 MST".

(** ** Writers

    The [io.Writer]s of this program: the standard output, the standard
    output behind [ansicolor.NewAnsiColorWriter], the standard error (the
    output of logrus' standard logger until it is set), [io.Discard] and a
    file opened by [LogFile]. *)
Inductive Writer :=
| Stdout
| Stderr
| AnsiColorStdout
| Discard
| FileWriter (name : string).

#[global] Instance Writer_eq_dec : EqDecision Writer.
Proof. solve_decision. Defined.

(** ** The hook

    [type loghook struct { Writer io.Writer; Formatter log.Formatter;
    levels []log.Level }].  [Writer] is an interface value and may be
    [nil] ([None]); every [Formatter] of the program is a
    [*log.TextFormatter]. *)

Record loghook := {
  hook_Writer : option Writer;
  Formatter : TextFormatter;
  levels : list Level
}.

Definition with_levels (h : loghook) (ls : list Level) : loghook :=
  {| hook_Writer := hook_Writer h; Formatter := Formatter h; levels := ls |}.

(** [func (h *loghook) SetLevel(level log.Level)]: the loop over
    [log.AllLevels], appending [l] when [level >= l]. *)
Definition SetLevel (h : loghook) (level : Level) : loghook :=
  fold_left
    (fun h' l => if l <=? level then with_levels h' (levels h' ++ [l]) else h')
    AllLevels
    (with_levels h []).

Definition Levels (h : loghook) : list Level := levels h.

(** ** Errors, files and the operating system *)

(** A Go [error], as the text [Error()] gives. *)
Abbreviation Error := string (only parsing).

(** [os.FileMode] is a [uint32]; [os.ModeCharDevice] is bit 21 of it. *)
Abbreviation FileMode := N (only parsing).
Definition ModeCharDevice : FileMode := N.shiftl 1 21.

Inductive OpenFlag := O_RDWR | O_CREATE | O_APPEND | O_SYNC.

(** What [configReader] hands back as an [io.ReadCloser]: [os.Stdin], or
    the [*os.File] that [os.Open] made for a path. *)
Inductive ReadCloser :=
| Stdin
| OpenedFile (path : string).

(** The answers of the surroundings: the operating system, the [cache]
    package of k0sctl (not part of [flags.go]) and the library functions
    [path.Join], [time.Now().Format] and [TextFormatter.Format]. *)
Record Env := {
  GOOS : string;
  Stdin_Stat : Error + FileMode;
  Stdout_Stat : Error + FileMode;
  os_Stat : string -> option Error;
  filepath_Abs : string -> Error + string;
  os_Open : string -> option Error;
  os_OpenFile : string -> list OpenFlag -> N -> option Error;
  Writer_Write : Writer -> string -> option Error;
  cache_Dir : string;
  cache_EnsureDir : string -> option Error;
  path_Join : string -> string -> string;
  time_Now_Format : string -> string;
  TextFormatter_Format : TextFormatter -> Entry -> Error + string
}.

(** The calls that leave the process, in the order they are made. *)
Inductive Event :=
| CallStdinStat
| CallStdoutStat
| CallStat (name : string)
| CallAbs (name : string)
| CallOpen (name : string)
| CallEnsureDir (dir : string)
| CallOpenFile (name : string) (flag : list OpenFlag) (perm : N)
| CallWrite (w : Writer) (data : string)
| CallFprintfStderr (text : string).

(** ** The process-wide variables *)

(** A [*logrus.Logger]; [Hooks] is logrus' [LevelHooks], a
    [map[Level][]Hook]. *)
Record Logger := {
  Out : Writer;
  Level_ : Level;
  Hooks : gmap N (list loghook)
}.

(** The only logger of the program is logrus' standard logger; a
    reference to it is this name. *)
Inductive LoggerRef := StandardLogger.

Record World := {
  std : Logger;                   (* logrus' standard logger *)
  exec_DisableRedact : bool;      (* rig/exec.DisableRedact *)
  rig_Log : option LoggerRef;     (* the logger given to rig.SetLogger *)
  Colorize : bool;                (* cmd.Colorize, an aurora: colours on? *)
  phase_Colorize : bool;          (* phase.Colorize *)
  calls : list Event
}.

(** ** The monad: state over [World], with Go's panic *)

Inductive Outcome (A : Type) :=
| Returned (a : A)
| Panicked (msg : string).
Arguments Returned {A} a.
Arguments Panicked {A} msg.

Definition M (A : Type) : Type := World -> Outcome A * World.

#[global] Instance M_ret : MRet M := fun A a w => (Returned a, w).

#[global] Instance M_bind : MBind M := fun A B f m w =>
  match m w with
  | (Returned a, w') => f a w'
  | (Panicked msg, w') => (Panicked msg, w')
  end.

Definition panic {A} (msg : string) : M A := fun w => (Panicked msg, w).

(** The world after one more call. *)
Definition record (e : Event) (w : World) : World :=
  {| std := std w; exec_DisableRedact := exec_DisableRedact w;
     rig_Log := rig_Log w; Colorize := Colorize w;
     phase_Colorize := phase_Colorize w; calls := calls w ++ [e] |}.

Definition call (e : Event) : M unit := fun w => (Returned tt, record e w).

(** The world after several more calls, made in the order of the list. *)
Definition record_all (evs : list Event) (w : World) : World :=
  fold_left (fun w' e => record e w') evs w.

Definition get_std : M Logger := fun w => (Returned (std w), w).

Definition set_std (l : Logger) : M unit := fun w =>
  (Returned tt,
   {| std := l; exec_DisableRedact := exec_DisableRedact w;
      rig_Log := rig_Log w; Colorize := Colorize w;
      phase_Colorize := phase_Colorize w; calls := calls w |}).

Definition set_exec_DisableRedact (b : bool) : M unit := fun w =>
  (Returned tt,
   {| std := std w; exec_DisableRedact := b;
      rig_Log := rig_Log w; Colorize := Colorize w;
      phase_Colorize := phase_Colorize w; calls := calls w |}).

Definition rig_SetLogger (l : LoggerRef) : M unit := fun w =>
  (Returned tt,
   {| std := std w; exec_DisableRedact := exec_DisableRedact w;
      rig_Log := Some l; Colorize := Colorize w;
      phase_Colorize := phase_Colorize w; calls := calls w |}).

Definition set_Colorize (b : bool) : M unit := fun w =>
  (Returned tt,
   {| std := std w; exec_DisableRedact := exec_DisableRedact w;
      rig_Log := rig_Log w; Colorize := b;
      phase_Colorize := phase_Colorize w; calls := calls w |}).

Definition set_phase_Colorize (b : bool) : M unit := fun w =>
  (Returned tt,
   {| std := std w; exec_DisableRedact := exec_DisableRedact w;
      rig_Log := rig_Log w; Colorize := Colorize w;
      phase_Colorize := b; calls := calls w |}).

(** ** The code of [flags.go], and the part of logrus that calls it *)

Section Program.

Context (env : Env).

(** *** Calls to the surroundings *)

Definition Stdin_Stat_call : M (Error + FileMode) :=
  _ ← call CallStdinStat; mret (Stdin_Stat env).

Definition Stdout_Stat_call : M (Error + FileMode) :=
  _ ← call CallStdoutStat; mret (Stdout_Stat env).

Definition Stat (name : string) : M (option Error) :=
  _ ← call (CallStat name); mret (os_Stat env name).

Definition Abs (name : string) : M (Error + string) :=
  _ ← call (CallAbs name); mret (filepath_Abs env name).

Definition Open (name : string) : M (option Error) :=
  _ ← call (CallOpen name); mret (os_Open env name).

Definition EnsureDir (dir : string) : M (option Error) :=
  _ ← call (CallEnsureDir dir); mret (cache_EnsureDir env dir).

Definition OpenFile (name : string) (flag : list OpenFlag) (perm : N)
  : M (option Error) :=
  _ ← call (CallOpenFile name flag perm); mret (os_OpenFile env name flag perm).

(** [w.Write(data)]; the error it returns. *)
Definition Write (w : Writer) (data : string) : M (option Error) :=
  _ ← call (CallWrite w data); mret (Writer_Write env w data).

Definition Fprintf_Stderr (text : string) : M unit :=
  call (CallFprintfStderr text).

(** *** [func (h *loghook) Fire(entry *log.Entry) error] *)
Definition Fire (h : loghook) (entry : Entry) : M (option Error) :=
  match TextFormatter_Format env (Formatter h) entry with
  | inl err =>
      _ ← Fprintf_Stderr ("Unable to format log entry: " +:+ err);
      mret (Some err)
  | inr line =>
      match hook_Writer h with
      | None => panic "invalid memory address or nil pointer dereference"
      | Some w => Write w line
      end
  end.

(** *** logrus: registering and firing hooks

    [func (hooks LevelHooks) Add(hook Hook)] appends the hook to the
    list of each level of [hook.Levels()]; [log.AddHook] does it on the
    standard logger. *)
Definition LevelHooks_Add (hooks : gmap N (list loghook)) (hook : loghook)
  : gmap N (list loghook) :=
  fold_left
    (fun hs level => <[level := default [] (hs !! level) ++ [hook]]> hs)
    (Levels hook) hooks.

Definition AddHook (hook : loghook) : M unit :=
  l ← get_std;
  set_std {| Out := Out l; Level_ := Level_ l;
             Hooks := LevelHooks_Add (Hooks l) hook |}.

Definition log_SetLevel (level : Level) : M unit :=
  l ← get_std;
  set_std {| Out := Out l; Level_ := level; Hooks := Hooks l |}.

Definition log_SetOutput (output : Writer) : M unit :=
  l ← get_std;
  set_std {| Out := output; Level_ := Level_ l; Hooks := Hooks l |}.

(** [func (hooks LevelHooks) Fire(level Level, entry *Entry) error]:
    the hooks of the level in turn, stopping at the first error. *)
Fixpoint fire_each (hs : list loghook) (entry : Entry) : M (option Error) :=
  match hs with
  | [] => mret None
  | h :: hs' =>
      err ← Fire h entry;
      match err with
      | Some e => mret (Some e)
      | None => fire_each hs' entry
      end
  end.

Definition LevelHooks_Fire (hooks : gmap N (list loghook))
    (level : Level) (entry : Entry) : M (option Error) :=
  fire_each (default [] (hooks !! level)) entry.

(** [func (entry *Entry) fireHooks()] *)
Definition fireHooks (entry : Entry) : M unit :=
  l ← get_std;
  err ← LevelHooks_Fire (Hooks l) (entry_Level entry) entry;
  match err with
  | Some e => Fprintf_Stderr ("Failed to fire hook: " +:+ e +:+ newline)
  | None => mret tt
  end.

(** What logging an entry on the standard logger does with the hooks:
    they are fired when the logger's level enables the entry's level.
    (The logger then writes the entry to its own output, which
    [initLogging] sets to [io.Discard].) *)
Definition log_entry (entry : Entry) : M unit :=
  l ← get_std;
  if entry_Level entry <=? Level_ l then fireHooks entry else mret tt.

(** *** The two hooks *)

(** [func screenLoggerHook(lvl log.Level) *loghook].  [fi, _ :=
    os.Stdout.Stat()] drops the error; [fi] is then [nil] and
    [fi.Mode()] panics. *)
Definition screenLoggerHook (lvl : Level) : M loghook :=
  '(writer, forceColors) ←
    (if String.eqb (GOOS env) "windows" then
       mret (AnsiColorStdout, true)
     else
       fi ← Stdout_Stat_call;
       match fi with
       | inl _ => panic "invalid memory address or nil pointer dereference"
       | inr mode => mret (Stdout, negb (N.land mode ModeCharDevice =? 0))
       end);
  _ ← (if forceColors : bool then
         _ ← set_Colorize true;
         set_phase_Colorize true
       else mret tt);
  let l := {| hook_Writer := Some writer;
              Formatter := {| ForceColors := forceColors;
                              DisableTimestamp := lvl <? DebugLevel;
                              FullTimestamp := false;
                              TimestampFormat := EmptyString;
                              DisableLevelTruncation := false |};
              levels := [] |} in
  mret (SetLevel l lvl).

(** [func fileLoggerHook(logFile io.Writer) *loghook] *)
Definition fileLoggerHook (logFile : option Writer) : loghook :=
  let l := {| hook_Writer := logFile;
              Formatter := {| ForceColors := false;
                              DisableTimestamp := false;
                              FullTimestamp := true;
                              TimestampFormat := RFC822;
                              DisableLevelTruncation := true |};
              levels := [] |} in
  SetLevel l DebugLevel.

(** *** Initialisation *)

(** A [*cli.Context], as far as [ctx.Bool(name)] reads it: the boolean
    flags that are set; a flag that is absent reads [false]. *)
Definition ctx_Bool (ctx : gmap string bool) (name : string) : bool :=
  default false (ctx !! name).

Definition logLevelFromCtx (ctx : gmap string bool) (defaultLevel : Level)
  : Level :=
  if ctx_Bool ctx "trace" then TraceLevel
  else if ctx_Bool ctx "debug" then DebugLevel
  else defaultLevel.

Definition initScreenLogger (lvl : Level) : M unit :=
  h ← screenLoggerHook lvl;
  AddHook h.

(** [func LogFile() (io.Writer, error)] *)
Definition LogFile : M (option Writer * option Error) :=
  let logDir := cache_Dir env in
  err ← EnsureDir logDir;
  match err with
  | Some e =>
      mret (None, Some ("error while creating log directory " +:+ logDir
                        +:+ ": " +:+ e))
  | None =>
      let fn := path_Join env logDir "k0sctl.log" in
      err ← OpenFile fn [O_RDWR; O_CREATE; O_APPEND; O_SYNC] 384 (* 0600 *);
      match err with
      | Some e =>
          mret (None, Some ("Failed to open log " +:+ fn +:+ ": " +:+ e))
      | None =>
          let logFile := FileWriter fn in
          _ ← Write logFile
                ("time=" +:+ dquote +:+ time_Now_Format env RFC822 +:+ dquote
                 +:+ " level=info msg=" +:+ dquote
                 +:+ "###### New session ######" +:+ dquote +:+ newline);
          mret (Some logFile, None)
      end
  end.

Definition initFileLogger : M (option Error) :=
  '(lf, err) ← LogFile;
  match err with
  | Some e => mret (Some e)
  | None =>
      _ ← AddHook (fileLoggerHook lf);
      mret None
  end.

(** [func initLogging(ctx *cli.Context) error] *)
Definition initLogging (ctx : gmap string bool) : M (option Error) :=
  _ ← log_SetLevel TraceLevel;
  _ ← log_SetOutput Discard;
  _ ← initScreenLogger (logLevelFromCtx ctx InfoLevel);
  _ ← set_exec_DisableRedact (ctx_Bool ctx "no-redact");
  _ ← rig_SetLogger StandardLogger;
  initFileLogger.

(** [func initSilentLogging(ctx *cli.Context) error] *)
Definition initSilentLogging (ctx : gmap string bool) : M (option Error) :=
  _ ← log_SetLevel TraceLevel;
  _ ← log_SetOutput Discard;
  _ ← set_exec_DisableRedact (ctx_Bool ctx "no-redact");
  _ ← initScreenLogger (logLevelFromCtx ctx FatalLevel);
  _ ← rig_SetLogger StandardLogger;
  initFileLogger.

(** *** [func configReader(f string) (io.ReadCloser, error)] *)

(** The candidates: [variants := []string{f}], and [k0sctl.yml] appended
    for the default value of the flag. *)
Definition variants (f : string) : list string :=
  let variants := [f] in
  if String.eqb f "k0sctl.yaml" then variants ++ ["k0sctl.yml"] else variants.

(** The loop [for _, fn := range variants].  [Some r]: the body returned
    [r]; [None]: the loop came to its end. *)
Fixpoint configReader_range (variants : list string)
  : M (option (option ReadCloser * option Error)) :=
  match variants with
  | [] => mret None
  | fn :: rest =>
      err ← Stat fn;
      match err with
      | Some _ => configReader_range rest
      | None =>
          r ← Abs fn;
          match r with
          | inl e => mret (Some (None, Some e))
          | inr fp =>
              err ← Open fp;
              match err with
              | Some e => mret (Some (None, Some e))
              | None => mret (Some (Some (OpenedFile fp), None))
              end
          end
      end
  end.

Definition configReader (f : string) : M (option ReadCloser * option Error) :=
  if String.eqb f "-" then
    stat ← Stdin_Stat_call;
    match stat with
    | inl e => mret (None, Some ("can't stat stdin: " +:+ e))
    | inr mode =>
        if N.land mode ModeCharDevice =? 0 then mret (Some Stdin, None)
        else mret (None, Some "can't read stdin")
    end
  else
    r ← configReader_range (variants f);
    match r with
    | Some result => mret result
    | None => mret (None, Some "failed to locate configuration")
    end.

End Program.

(** ** Reading the log of calls *)

(** What was handed to [dest.Write], in order. *)
Definition written (dest : Writer) (evs : list Event) : list string :=
  omap (fun e => match e with
                 | CallWrite w data =>
                     if decide (w = dest) then Some data else None
                 | _ => None
                 end) evs.

(** ** Conditions on the surroundings *)

(** The standard output can be examined: on Windows the code does not ask,
    elsewhere [os.Stdout.Stat()] has to answer. *)
Definition Stdout_known (env : Env) : Prop :=
  GOOS env = "windows" ∨ ∃ mode : FileMode, Stdout_Stat env = inr mode.

(** The hook [screenLoggerHook] builds once the writer and the colours are
    decided. *)
Definition screen_hook (writer : Writer) (forceColors : bool) (lvl : Level)
  : loghook :=
  SetLevel {| hook_Writer := Some writer;
              Formatter := {| ForceColors := forceColors;
                              DisableTimestamp := lvl <? DebugLevel;
                              FullTimestamp := false;
                              TimestampFormat := EmptyString;
                              DisableLevelTruncation := false |};
              levels := [] |} lvl.

(** [LogFile] cannot make the log directory, or cannot open the log file;
    [err] is the error it then builds. *)
Definition LogFile_fails (env : Env) (err : Error) : Prop :=
  let logDir := cache_Dir env in
  let fn := path_Join env logDir "k0sctl.log" in
  (∃ e : Error,
     cache_EnsureDir env logDir = Some e ∧
     err = "error while creating log directory " +:+ logDir +:+ ": " +:+ e) ∨
  (cache_EnsureDir env logDir = None ∧
   ∃ e : Error,
     os_OpenFile env fn [O_RDWR; O_CREATE; O_APPEND; O_SYNC] 384 = Some e ∧
     err = "Failed to open log " +:+ fn +:+ ": " +:+ e).

(** Run from the world [w], the initialisation [init] returns, and the
    hook it has registered for the screen is the one [screenLoggerHook]
    builds for the threshold [T]: it accepts the levels at least as severe
    as [T], and the hooks of the standard logger are those of [w], then this
    hook, then the file hook if the log file could be opened. *)
Definition registers_screen_hook (env : Env) (init : M (option Error))
    (w : World) (T : Level) : Prop :=
  ∃ (h : loghook) (wa wb : World) (err : option Error) (w' : World),
    screenLoggerHook env T wa = (Returned h, wb) ∧
    (∀ S : Level, S ∈ AllLevels → (S ∈ Levels h ↔ S ≤ T)) ∧
    init w = (Returned err, w') ∧
    (Hooks (std w') = LevelHooks_Add (Hooks (std w)) h ∨
     ∃ lf : option Writer,
       Hooks (std w')
       = LevelHooks_Add (LevelHooks_Add (Hooks (std w)) h)
           (fileLoggerHook lf)).

(** ** Sample surroundings, for the examples that close the file *)

(** A terminal session on Linux: standard input and output are character
    devices, only [k0sctl.yml] exists in the working directory [/work], and
    the log file cannot be opened.  The formatter refuses an entry without
    a message. *)
Definition terminal_env : Env := {|
  GOOS := "linux";
  Stdin_Stat := inr (N.lor ModeCharDevice 400);
  Stdout_Stat := inr (N.lor ModeCharDevice 400);
  os_Stat := fun name =>
    if String.eqb name "k0sctl.yml" then None
    else Some ("stat " +:+ name +:+ ": no such file or directory");
  filepath_Abs := fun name => inr ("/work/" +:+ name);
  os_Open := fun _ => None;
  os_OpenFile := fun name _ _ => Some ("open " +:+ name +:+ ": permission denied");
  Writer_Write := fun _ _ => None;
  cache_Dir := "/home/k0s/.cache/k0sctl";
  cache_EnsureDir := fun _ => None;
  path_Join := fun dir name => dir +:+ "/" +:+ name;
  time_Now_Format := fun _ => "02 Nov 26 13:46 UTC";
  TextFormatter_Format := fun _ entry =>
    match entry_Message entry with
    | EmptyString => inl "no message"
    | msg => inr ("msg=" +:+ msg +:+ newline)
    end
|}.

(** The same with standard input from a pipe, no configuration file at
    all and a log file that opens. *)
Definition pipe_env : Env := {|
  GOOS := GOOS terminal_env;
  Stdin_Stat := inr 400;
  Stdout_Stat := Stdout_Stat terminal_env;
  os_Stat := fun name => Some ("stat " +:+ name +:+ ": no such file or directory");
  filepath_Abs := filepath_Abs terminal_env;
  os_Open := os_Open terminal_env;
  os_OpenFile := fun _ _ _ => None;
  Writer_Write := Writer_Write terminal_env;
  cache_Dir := cache_Dir terminal_env;
  cache_EnsureDir := cache_EnsureDir terminal_env;
  path_Join := path_Join terminal_env;
  time_Now_Format := time_Now_Format terminal_env;
  TextFormatter_Format := TextFormatter_Format terminal_env
|}.

(** The process as it starts: logrus' standard logger writes to the
    standard error at level Info and has no hooks. *)
Definition fresh_world : World := {|
  std := {| Out := Stderr; Level_ := InfoLevel; Hooks := ∅ |};
  exec_DisableRedact := false;
  rig_Log := None;
  Colorize := false;
  phase_Colorize := false;
  calls := []
|}.

(** The standard logger as [initLogging] sets it before it adds hooks. *)
Definition quiet_world : World := {|
  std := {| Out := Discard; Level_ := TraceLevel; Hooks := ∅ |};
  exec_DisableRedact := false;
  rig_Log := None;
  Colorize := false;
  phase_Colorize := false;
  calls := []
|}.

Definition sample_log : Writer := FileWriter "/home/k0s/.cache/k0sctl/k0sctl.log".

Definition wordless (level : Level) : Entry :=
  {| entry_Time := "02 Nov 26 13:47 UTC"; entry_Level := level;
     entry_Message := EmptyString |}.

Definition hello (level : Level) : Entry :=
  {| entry_Time := "02 Nov 26 13:47 UTC"; entry_Level := level;
     entry_Message := "hello" |}.

(** * The other functions of [flags.go]

    [actions], [initConfig], [displayCopyright], [initAnalytics] and
    [displayLogo] are the [Before] actions of the commands.  They act on
    the [*cli.Context] of the invocation and on [analytics.Client]; they
    read a file with [io.ReadAll], close it, and ask [segment] for a
    client. *)

(** The flags declared at the head of [flags.go], with the fields their
    literals set ([cli.BoolFlag], [cli.StringFlag]). *)
Record BoolFlag := {
  bool_Name : string;
  bool_Usage : string;
  bool_Aliases : list string;
  bool_EnvVars : list string;
  bool_Hidden : bool;
  bool_Value : bool
}.

Record StringFlag := {
  string_Name : string;
  string_Usage : string;
  string_Aliases : list string;
  string_Value : string;
  string_TakesFile : bool
}.

Definition debugFlag : BoolFlag := {|
  bool_Name := "debug"; bool_Usage := "Enable debug logging";
  bool_Aliases := ["d"]; bool_EnvVars := ["DEBUG"];
  bool_Hidden := false; bool_Value := false |}.

Definition traceFlag : BoolFlag := {|
  bool_Name := "trace"; bool_Usage := "Enable trace logging";
  bool_Aliases := []; bool_EnvVars := ["TRACE"];
  bool_Hidden := false; bool_Value := false |}.

Definition redactFlag : BoolFlag := {|
  bool_Name := "no-redact";
  bool_Usage := "Do not hide sensitive information in the output";
  bool_Aliases := []; bool_EnvVars := [];
  bool_Hidden := false; bool_Value := false |}.

Definition configFlag : StringFlag := {|
  string_Name := "config";
  string_Usage := "Path to cluster config yaml. Use '-' to read from stdin.";
  string_Aliases := ["c"];
  string_Value := "k0sctl.yaml";
  string_TakesFile := true |}.

Definition analyticsFlag : BoolFlag := {|
  bool_Name := "disable-telemetry"; bool_Usage := EmptyString;
  bool_Aliases := []; bool_EnvVars := ["DISABLE_TELEMETRY"];
  bool_Hidden := false; bool_Value := false |}.

(** An analytics client, as [segment.NewClient()] makes one. *)
Inductive Client := SegmentClient (writeKey : string).

(** The calls these functions make besides those of [Event]. *)
Inductive IOCall :=
| CallReadAll (file : ReadCloser)
| CallClose (file : ReadCloser)
| CallNewClient.

(** What the packages around [flags.go] answer: [io.ReadAll], the flag set
    behind [ctx.Set], [segment.NewClient], the clock, and the variables
    [version.Version], [segment.WriteKey] and [logo]. *)
Record Deps := {
  io_ReadAll : ReadCloser -> Error + string;
  flagSet_Set : string -> string -> option Error;
  segment_NewClient : Error + Client;
  segment_WriteKey : string;
  version_Version : string;
  logo : string;
  time_Now : string
}.

(** The process: the [World] of the logging code, the flags of the one
    [*cli.Context] ([ctx.Bool], [ctx.String]; a flag that is absent reads
    [false] or the empty string), [analytics.Client], and the log of the
    calls of [IOCall].  The two logs are each in the order of the calls. *)
Record Process := {
  world : World;
  ctx_Bools : gmap string bool;
  ctx_Strings : gmap string string;
  analytics_Client : option Client;
  io_calls : list IOCall
}.

Definition P (A : Type) : Type := Process -> Outcome A * Process.

#[global] Instance P_ret : MRet P := fun A a p => (Returned a, p).

#[global] Instance P_bind : MBind P := fun A B f m p =>
  match m p with
  | (Returned a, p') => f a p'
  | (Panicked msg, p') => (Panicked msg, p')
  end.

Definition with_world (p : Process) (w : World) : Process :=
  {| world := w; ctx_Bools := ctx_Bools p; ctx_Strings := ctx_Strings p;
     analytics_Client := analytics_Client p; io_calls := io_calls p |}.

(** A computation of the logging code, run in the process. *)
Definition liftM {A : Type} (m : M A) : P A := fun p =>
  let (r, w') := m (world p) in (r, with_world p w').

Definition panicP {A : Type} (msg : string) : P A := fun p => (Panicked msg, p).

(** The process after one more call. *)
Definition record_io (c : IOCall) (p : Process) : Process :=
  {| world := world p; ctx_Bools := ctx_Bools p; ctx_Strings := ctx_Strings p;
     analytics_Client := analytics_Client p; io_calls := io_calls p ++ [c] |}.

Definition call_io (c : IOCall) : P unit := fun p => (Returned tt, record_io c p).

Definition Context_Bool (name : string) : P bool := fun p =>
  (Returned (ctx_Bool (ctx_Bools p) name), p).

Definition Context_String (name : string) : P string := fun p =>
  (Returned (default EmptyString (ctx_Strings p !! name)), p).

Definition set_ctx_String (name value : string) (p : Process) : Process :=
  {| world := world p; ctx_Bools := ctx_Bools p;
     ctx_Strings := <[name := value]> (ctx_Strings p);
     analytics_Client := analytics_Client p; io_calls := io_calls p |}.

Definition set_analytics_Client (c : Client) : P unit := fun p =>
  (Returned tt,
   {| world := world p; ctx_Bools := ctx_Bools p; ctx_Strings := ctx_Strings p;
      analytics_Client := Some c; io_calls := io_calls p |}).

Section Actions.

Context (env : Env) (deps : Deps).

(** [ctx.Set(name, value)]: the flag set refuses, or the flag has the
    value from now on. *)
Definition Context_Set (name value : string) : P (option Error) := fun p =>
  match flagSet_Set deps name value with
  | Some e => (Returned (Some e), p)
  | None => (Returned None, set_ctx_String name value p)
  end.

Definition ReadAll (file : ReadCloser) : P (Error + string) :=
  _ ← call_io (CallReadAll file); mret (io_ReadAll deps file).

Definition Close (file : ReadCloser) : P unit := call_io (CallClose file).

Definition NewClient : P (Error + Client) :=
  _ ← call_io CallNewClient; mret (segment_NewClient deps).

(** [fmt.Printf] and [fmt.Println]: one write of the text to [os.Stdout],
    whose result is dropped. *)
Definition Printf (text : string) : P unit :=
  _ ← liftM (Write env Stdout text); mret tt.

Definition Println (text : string) : P unit := Printf (text +:+ newline).

(** [log.Tracef] on the standard logger. *)
Definition log_Tracef (msg : string) : P unit :=
  liftM (log_entry env {| entry_Time := time_Now deps;
                          entry_Level := TraceLevel;
                          entry_Message := msg |}).

(** [func actions(funcs ...)], over functions from a [*cli.Context] to an
    [error]: the functions in turn on the context, up to the first
    error. *)
Fixpoint actions (funcs : list (P (option Error))) : P (option Error) :=
  match funcs with
  | [] => mret None
  | f :: rest =>
      err ← f;
      match err with
      | Some e => mret (Some e)
      | None => actions rest
      end
  end.

(** [func initConfig(ctx *cli.Context) error].  [defer file.Close()] runs
    when the function returns, after [ctx.Set]; on a [nil] file the
    [defer] statement itself panics. *)
Definition initConfig : P (option Error) :=
  f ← Context_String "config";
  match f with
  | EmptyString => mret None
  | _ =>
      '(file, err) ← liftM (configReader env f);
      match err with
      | Some e => mret (Some e)
      | None =>
          match file with
          | None => panicP "invalid memory address or nil pointer dereference"
          | Some file =>
              r ← ReadAll file;
              result ← match r with
                       | inl e => mret (Some e)
                       | inr content => Context_Set "config" content
                       end;
              _ ← Close file;
              mret result
          end
      end
  end.

(** [func displayCopyright(ctx *cli.Context) error] *)
Definition displayCopyright : P (option Error) :=
  _ ← Printf ("k0sctl " +:+ version_Version deps
              +:+ " Copyright 2021, k0sctl authors." +:+ newline);
  disabled ← Context_Bool "disable-telemetry";
  _ ← (if negb disabled
       then Println "Anonymized telemetry of usage will be sent to the authors."
       else mret tt);
  _ ← Println "By continuing to use k0sctl you agree to these terms:";
  _ ← Println "https://k0sproject.io/licenses/eula";
  mret None.

(** [func initAnalytics(ctx *cli.Context) error] *)
Definition initAnalytics : P (option Error) :=
  disabled ← Context_Bool "disable-telemetry";
  if disabled : bool then
    _ ← log_Tracef "disabling telemetry";
    mret None
  else
    match segment_WriteKey deps with
    | EmptyString =>
        _ ← log_Tracef "segment write key not set, analytics disabled";
        mret None
    | _ =>
        r ← NewClient;
        match r with
        | inl e => mret (Some e)
        | inr client =>
            _ ← set_analytics_Client client;
            mret None
        end
    end.

(** [func displayLogo(_ *cli.Context) error] *)
Definition displayLogo : P (option Error) :=
  _ ← Println (logo deps);
  mret None.

(** [initLogging] and [initSilentLogging] as actions on the context. *)
Definition initLogging_action : P (option Error) := fun p =>
  liftM (initLogging env (ctx_Bools p)) p.

Definition initSilentLogging_action : P (option Error) := fun p =>
  liftM (initSilentLogging env (ctx_Bools p)) p.

End Actions.

(** What was handed to [os.Stdout] by [fmt.Printf] and [fmt.Println] or by
    a hook, in order. *)
Definition printed (p : Process) : list string := written Stdout (calls (world p)).


(** ** What the initialisation leaves behind

    The writer and the colours [screenLoggerHook] decides on, its hook, and
    the process after it; the log file's name and session line; the process
    when [initLogging] comes to [initFileLogger].  Each is tied to the code
    by a lemma below. *)

Definition screen_writer (env : Env) : Writer :=
  if bool_decide (GOOS env = "windows") then AnsiColorStdout else Stdout.

Definition screen_forceColors (env : Env) : bool :=
  bool_decide (GOOS env = "windows")
  || match Stdout_Stat env with
     | inr mode => negb (N.land mode ModeCharDevice =? 0)
     | inl _ => false
     end.

Definition the_screen_hook (env : Env) (lvl : Level) : loghook :=
  screen_hook (screen_writer env) (screen_forceColors env) lvl.

Definition after_screenLoggerHook (env : Env) (w : World) : World :=
  let w1 :=
    record_all
      (if bool_decide (GOOS env = "windows") then [] else [CallStdoutStat]) w in
  {| std := std w1; exec_DisableRedact := exec_DisableRedact w1;
     rig_Log := rig_Log w1;
     Colorize := screen_forceColors env || Colorize w1;
     phase_Colorize := screen_forceColors env || phase_Colorize w1;
     calls := calls w1 |}.

Definition log_file_name (env : Env) : string :=
  path_Join env (cache_Dir env) "k0sctl.log".

Definition session_line (env : Env) : string :=
  "time=" +:+ dquote +:+ time_Now_Format env RFC822 +:+ dquote
  +:+ " level=info msg=" +:+ dquote
  +:+ "###### New session ######" +:+ dquote +:+ newline.

Definition the_file_hook (env : Env) : loghook :=
  fileLoggerHook (Some (FileWriter (log_file_name env))).

(** The process when [initLogging] or [initSilentLogging], with the
    threshold [T] for the screen, comes to [initFileLogger]. *)
Definition before_initFileLogger (env : Env) (ctx : gmap string bool)
    (T : Level) (w : World) : World :=
  let w1 := after_screenLoggerHook env w in
  {| std := {| Out := Discard; Level_ := TraceLevel;
               Hooks := LevelHooks_Add (Hooks (std w)) (the_screen_hook env T) |};
     exec_DisableRedact := ctx_Bool ctx "no-redact";
     rig_Log := Some StandardLogger;
     Colorize := Colorize w1;
     phase_Colorize := phase_Colorize w1;
     calls := calls w1 |}.

(** The log directory can be made and the log file opened. *)
Definition LogFile_opens (env : Env) : Prop :=
  cache_EnsureDir env (cache_Dir env) = None ∧
  os_OpenFile env (log_file_name env) [O_RDWR; O_CREATE; O_APPEND; O_SYNC] 384
  = None.

(** Every hook of the standard logger has a writer. *)
Definition hooks_have_writers (w : World) : Prop :=
  ∀ (l : Level) (h : loghook),
    h ∈ default [] (Hooks (std w) !! l) → is_Some (hook_Writer h).

(** The calls that only look at the standard input and the file system. *)
Definition is_lookup (e : Event) : Prop :=
  match e with
  | CallStdinStat | CallStat _ | CallAbs _ | CallOpen _ => True
  | _ => False
  end.

(** The calls that write: to a writer, or to the standard error. *)
Definition is_output (e : Event) : Prop :=
  match e with
  | CallWrite _ _ | CallFprintfStderr _ => True
  | _ => False
  end.

(** ** More sample surroundings *)

(** A process started with its standard input and output closed. *)
Definition closed_env : Env := {|
  GOOS := GOOS terminal_env;
  Stdin_Stat := inl "stat /dev/stdin: bad file descriptor";
  Stdout_Stat := inl "stat /dev/stdout: bad file descriptor";
  os_Stat := os_Stat terminal_env;
  filepath_Abs := filepath_Abs terminal_env;
  os_Open := os_Open terminal_env;
  os_OpenFile := os_OpenFile terminal_env;
  Writer_Write := Writer_Write terminal_env;
  cache_Dir := cache_Dir terminal_env;
  cache_EnsureDir := cache_EnsureDir terminal_env;
  path_Join := path_Join terminal_env;
  time_Now_Format := time_Now_Format terminal_env;
  TextFormatter_Format := TextFormatter_Format terminal_env
|}.

Definition sample_document : string := "apiVersion: k0sctl.k0sproject.io/v1beta1".

Definition sample_deps : Deps := {|
  io_ReadAll := fun _ => inr sample_document;
  flagSet_Set := fun _ _ => None;
  segment_NewClient := inr (SegmentClient "write-key");
  segment_WriteKey := "write-key";
  version_Version := "v0.0.0";
  logo := "k0sctl";
  time_Now := "02 Nov 26 13:47 UTC"
|}.

(** The process at its start, with the [config] flag at its default, and
    with the flag set to [-]. *)
Definition fresh_process : Process := {|
  world := fresh_world;
  ctx_Bools := ∅;
  ctx_Strings := {[string_Name configFlag := string_Value configFlag]};
  analytics_Client := None;
  io_calls := []
|}.

Definition stdin_process : Process := {|
  world := fresh_world;
  ctx_Bools := ∅;
  ctx_Strings := {["config" := "-"]};
  analytics_Client := None;
  io_calls := []
|}.

(** The error of [LogFile] in [terminal_env]. *)
Definition terminal_log_error : Error :=
  "Failed to open log /home/k0s/.cache/k0sctl/k0sctl.log: "
  +:+ "open /home/k0s/.cache/k0sctl/k0sctl.log: permission denied".

(** The process with no [config] flag. *)
Definition bare_process : Process := {|
  world := fresh_world;
  ctx_Bools := ∅;
  ctx_Strings := ∅;
  analytics_Client := None;
  io_calls := []
|}.

(** * Properties *)

(** ** [SetLevel] *)

Lemma SetLevel_loop (level : Level) (ls : list Level) (h : loghook) :
  fold_left
    (fun h' l => if l <=? level then with_levels h' (levels h' ++ [l]) else h')
    ls h
  = with_levels h (levels h ++ filter (fun l => l ≤ level) ls).
Proof.
  revert h. induction ls as [|l ls IH]; intros h; simpl.
  - rewrite app_nil_r. by destruct h.
  - rewrite IH. destruct (N.leb_spec l level) as [Hle|Hgt]; simpl.
    + rewrite filter_cons_True by done. by rewrite <- app_assoc.
    + rewrite filter_cons_False by lia. done.
Qed.

Lemma SetLevel_eq (h : loghook) (level : Level) :
  SetLevel h level = with_levels h (filter (fun l => l ≤ level) AllLevels).
Proof. unfold SetLevel. by rewrite SetLevel_loop. Qed.

Lemma Levels_SetLevel (h : loghook) (level : Level) :
  Levels (SetLevel h level) = filter (fun l => l ≤ level) AllLevels.
Proof. by rewrite SetLevel_eq. Qed.

Lemma elem_of_Levels_SetLevel (h : loghook) (S T : Level) :
  S ∈ Levels (SetLevel h T) ↔ S ∈ AllLevels ∧ S ≤ T.
Proof. rewrite Levels_SetLevel, list_elem_of_filter. tauto. Qed.

Lemma severities_AllLevels (S : Level) : S ∈ severities → S ∈ AllLevels.
Proof. rewrite !list_elem_of_In. simpl. tauto. Qed.

(** C1. After [SetLevel T] the hook accepts a severity [S] exactly when [S]
    is at least as severe as [T] (Fatal < Error < Warning < Info < Debug <
    Trace, numerically [S ≤ T]), for every level [S] of logrus, the six
    severities among them; with the threshold Info it accepts Fatal, Error,
    Warning and Info and rejects Debug and Trace. *)
Theorem SetLevel_accepts (h : loghook) :
  (∀ S T : Level, S ∈ AllLevels → (S ∈ Levels (SetLevel h T) ↔ S ≤ T)) ∧
  FatalLevel ∈ Levels (SetLevel h InfoLevel) ∧
  ErrorLevel ∈ Levels (SetLevel h InfoLevel) ∧
  WarnLevel ∈ Levels (SetLevel h InfoLevel) ∧
  InfoLevel ∈ Levels (SetLevel h InfoLevel) ∧
  (DebugLevel ∉ Levels (SetLevel h InfoLevel)) ∧
  (TraceLevel ∉ Levels (SetLevel h InfoLevel)).
Proof.
  split.
  - intros S T HS. rewrite elem_of_Levels_SetLevel. tauto.
  - rewrite !elem_of_Levels_SetLevel, !list_elem_of_In.
    unfold AllLevels, PanicLevel, FatalLevel, ErrorLevel, WarnLevel,
      InfoLevel, DebugLevel, TraceLevel.
    simpl. intuition lia.
Qed.

(** C8. A more verbose threshold accepts at least what a less verbose one
    accepts. *)
Theorem SetLevel_monotone (h1 h2 : loghook) (T1 T2 : Level) :
  T2 ≤ T1 → (Levels (SetLevel h2 T2) ⊆ Levels (SetLevel h1 T1)).
Proof.
  intros HT S. rewrite !elem_of_Levels_SetLevel. intros [HS Hle].
  split; [done | lia].
Qed.

(** ** [Fire] *)

Lemma written_app (dest : Writer) (evs1 evs2 : list Event) :
  written dest (evs1 ++ evs2) = written dest evs1 ++ written dest evs2.
Proof. unfold written. apply omap_app. Qed.

Lemma calls_record (e : Event) (w : World) :
  calls (record e w) = calls w ++ [e].
Proof. done. Qed.

Section Properties.

Context (env : Env).

Lemma Fire_format_error (h : loghook) (entry : Entry) (err : Error)
    (w : World) :
  TextFormatter_Format env (Formatter h) entry = inl err →
  Fire env h entry w
  = (Returned (Some err),
     record (CallFprintfStderr ("Unable to format log entry: " +:+ err)) w).
Proof. intros Hfmt. unfold Fire. by rewrite Hfmt. Qed.

Lemma Fire_formatted (h : loghook) (dest : Writer) (entry : Entry)
    (line : string) (w : World) :
  hook_Writer h = Some dest →
  TextFormatter_Format env (Formatter h) entry = inr line →
  Fire env h entry w
  = (Returned (Writer_Write env dest line), record (CallWrite dest line) w).
Proof. intros Hdest Hfmt. unfold Fire. by rewrite Hfmt, Hdest. Qed.

(** C7. [Fire] on an entry whose formatting fails reports the failure on
    the standard error, hands nothing to the destination and returns the
    error (it does not panic); on an entry that formats to [line] it
    hands [line] to the destination, once, and returns what that write
    returned. *)
Theorem Fire_writes_once_or_not (h : loghook) (dest : Writer)
    (entry : Entry) (w : World) :
  hook_Writer h = Some dest →
  (∀ err : Error,
     TextFormatter_Format env (Formatter h) entry = inl err →
     Fire env h entry w
     = (Returned (Some err),
        record (CallFprintfStderr ("Unable to format log entry: " +:+ err)) w)
     ∧ ∀ d, written d (calls (Fire env h entry w).2) = written d (calls w)) ∧
  (∀ line : string,
     TextFormatter_Format env (Formatter h) entry = inr line →
     Fire env h entry w
     = (Returned (Writer_Write env dest line), record (CallWrite dest line) w)
     ∧ written dest (calls (Fire env h entry w).2)
       = written dest (calls w) ++ [line]).
Proof.
intros Hdest. split.
- intros err Hfmt.
  pose proof (Fire_format_error h entry err w Hfmt) as Heq.
  split; [done|]. intros d. rewrite Heq. cbn [snd].
  rewrite calls_record, written_app. cbn [written omap list_omap].
  by rewrite app_nil_r.
- intros line Hfmt.
  pose proof (Fire_formatted h dest entry line w Hdest Hfmt) as Heq.
  split; [done|]. rewrite Heq. cbn [snd].
  rewrite calls_record, written_app. cbn [written omap list_omap].
  by rewrite decide_True.
Qed.

(** ** Registering a hook, and the file hook *)

Lemma LevelHooks_Add_loop (hook : loghook) (ls : list Level)
    (hooks : gmap N (list loghook)) (l : Level) :
  NoDup ls →
  fold_left
    (fun hs level => <[level := default [] (hs !! level) ++ [hook]]> hs)
    ls hooks !! l
  = if decide (l ∈ ls) then Some (default [] (hooks !! l) ++ [hook])
    else hooks !! l.
Proof.
  intros Hnd. revert hooks.
  induction Hnd as [|a ls Ha Hnd IH]; intros hooks; cbn [fold_left].
  - by destruct (decide (l ∈ [])) as [Hin|_]; [inversion Hin|].
  - rewrite IH. destruct (decide (l = a)) as [->|Hne].
    + rewrite decide_False by done. rewrite lookup_insert_eq.
      rewrite decide_True by apply list_elem_of_here. done.
    + rewrite lookup_insert_ne by done.
      destruct (decide (l ∈ ls)) as [Hin|Hnin].
      * rewrite decide_True by (by apply list_elem_of_further). done.
      * rewrite decide_False; [done|].
        rewrite elem_of_cons. tauto.
Qed.

Lemma NoDup_AllLevels : NoDup AllLevels.
Proof. apply (bool_decide_unpack _). by vm_compute. Qed.

Lemma NoDup_Levels_SetLevel (h : loghook) (level : Level) :
  NoDup (Levels (SetLevel h level)).
Proof. rewrite Levels_SetLevel. apply NoDup_filter, NoDup_AllLevels. Qed.

(** After [Add] the hook is last in the list of each of its levels, and
    the other lists are as they were. *)
Lemma LevelHooks_Add_lookup (hooks : gmap N (list loghook))
    (h : loghook) (level l : Level) :
  LevelHooks_Add hooks (SetLevel h level) !! l
  = if decide (l ∈ Levels (SetLevel h level))
    then Some (default [] (hooks !! l) ++ [SetLevel h level])
    else hooks !! l.
Proof. apply LevelHooks_Add_loop, NoDup_Levels_SetLevel. Qed.

Lemma fileLoggerHook_Levels (logFile : option Writer) :
  Levels (fileLoggerHook logFile)
  = [PanicLevel; FatalLevel; ErrorLevel; WarnLevel; InfoLevel; DebugLevel].
Proof. unfold fileLoggerHook. by rewrite Levels_SetLevel. Qed.

Lemma fileLoggerHook_Writer (logFile : option Writer) :
  hook_Writer (fileLoggerHook logFile) = logFile.
Proof. unfold fileLoggerHook. by rewrite SetLevel_eq. Qed.

(** ** Dispatch to the hooks *)

Ltac run :=
  unfold mbind, mret, M_bind, M_ret, get_std, set_std, panic,
    Fprintf_Stderr, call;
  cbn beta iota.

Lemma log_entry_eq (entry : Entry) (w : World) :
  log_entry env entry w
  = if entry_Level entry <=? Level_ (std w) then fireHooks env entry w
    else (Returned tt, w).
Proof. unfold log_entry. run. by destruct (_ <=? _). Qed.

Lemma fireHooks_eq (entry : Entry) (w : World) :
  fireHooks env entry w
  = match fire_each env (default [] (Hooks (std w) !! entry_Level entry))
            entry w with
    | (Returned (Some e), w') =>
        (Returned tt,
         record (CallFprintfStderr ("Failed to fire hook: " +:+ e +:+ newline)) w')
    | (Returned None, w') => (Returned tt, w')
    | (Panicked msg, w') => (Panicked msg, w')
    end.
Proof.
  unfold fireHooks, LevelHooks_Fire. run.
  destruct (fire_each _ _ _ _) as [[[e|]|msg] w']; done.
Qed.

Lemma fire_each_single (h : loghook) (entry : Entry) (w : World) :
  fire_each env [h] entry w = Fire env h entry w.
Proof.
  cbn [fire_each]. run.
  destruct (Fire env h entry w) as [[[e|]|msg] w']; done.
Qed.

(** C5. The file hook is set to the threshold Debug: of the six
    severities it accepts Fatal, Error, Warning, Info and Debug, and not
    Trace.  With the file hook registered on a logger without hooks at
    level Trace, logging an entry of one of the six severities, which
    formats to [line], hands [line] to the log file once when the
    severity is one of the five, and hands it nothing when it is Trace. *)
Theorem fileLoggerHook_writes_Debug_and_above (logFile : Writer)
    (entry : Entry) (line : string) (w : World) :
  entry_Level entry ∈ severities →
  Hooks (std w) = ∅ →
  Level_ (std w) = TraceLevel →
  TextFormatter_Format env (Formatter (fileLoggerHook (Some logFile))) entry
  = inr line →
  let hook := fileLoggerHook (Some logFile) in
  let accepted :=
    [FatalLevel; ErrorLevel; WarnLevel; InfoLevel; DebugLevel] in
  let w1 := (AddHook hook w).2 in
  (entry_Level entry ∈ Levels hook ↔ entry_Level entry ∈ accepted) ∧
  (TraceLevel ∉ Levels hook) ∧
  ∃ evs : list Event,
    (log_entry env entry w1).1 = Returned tt ∧
    calls (log_entry env entry w1).2 = calls w ++ evs ∧
    written logFile evs
    = if decide (entry_Level entry ∈ accepted) then [line] else [].
Proof.
  intros Hsev Hempty Hlevel Hfmt hook accepted w1.
  assert (entry_Level entry ∈ Levels hook ↔ entry_Level entry ∈ accepted)
    as Hacc.
  { subst hook accepted. rewrite fileLoggerHook_Levels.
    revert Hsev. rewrite !list_elem_of_In.
    unfold severities, PanicLevel, FatalLevel, ErrorLevel, WarnLevel,
      InfoLevel, DebugLevel, TraceLevel.
    simpl. intuition lia. }
  split; [done|]. split.
  { subst hook. rewrite fileLoggerHook_Levels, list_elem_of_In.
    unfold PanicLevel, FatalLevel, ErrorLevel, WarnLevel, InfoLevel,
      DebugLevel, TraceLevel.
    simpl. intuition lia. }
  assert (std w1 = {| Out := Out (std w); Level_ := TraceLevel;
                      Hooks := LevelHooks_Add ∅ hook |}) as Hstd.
  { subst w1. unfold AddHook. run. cbn. by rewrite Hempty, Hlevel. }
  assert (calls w1 = calls w) as Hcalls by done.
  assert (entry_Level entry ≤ TraceLevel) as Hle.
  { revert Hsev. rewrite list_elem_of_In.
    unfold severities, FatalLevel, ErrorLevel, WarnLevel, InfoLevel,
      DebugLevel, TraceLevel.
    simpl. intuition lia. }
  assert (default [] (Hooks (std w1) !! entry_Level entry)
          = if decide (entry_Level entry ∈ accepted) then [hook] else [])
    as Hlook.
  { rewrite Hstd. cbn [Hooks]. unfold hook at 1, fileLoggerHook at 1.
    rewrite LevelHooks_Add_lookup, lookup_empty.
    fold (fileLoggerHook (Some logFile)). fold hook.
    destruct (decide (entry_Level entry ∈ accepted)) as [Hin|Hnin].
    - by rewrite decide_True by (by apply Hacc).
    - by rewrite decide_False by (by rewrite Hacc). }
  assert (log_entry env entry w1 = fireHooks env entry w1) as Hrun.
  { rewrite log_entry_eq, Hstd. cbn [Level_].
    apply N.leb_le in Hle. by rewrite Hle. }
  rewrite Hrun, fireHooks_eq, Hlook.
  destruct (decide (entry_Level entry ∈ accepted)) as [Hin|Hnin].
  - rewrite fire_each_single.
    rewrite (Fire_formatted hook logFile entry line w1
               (fileLoggerHook_Writer _) Hfmt).
    destruct (Writer_Write env logFile line) as [e|].
    + eexists. split; [done|]. cbn [snd]. rewrite !calls_record, Hcalls.
      rewrite <- app_assoc. split; [done|].
      cbn. by rewrite decide_True.
    + eexists. split; [done|]. cbn [snd]. rewrite !calls_record, Hcalls.
      split; [done|]. cbn. by rewrite decide_True.
  - exists []. cbn. by rewrite Hcalls, app_nil_r.
Qed.

(** ** The screen hook *)

Lemma screenLoggerHook_run (lvl : Level) (w : World) :
  Stdout_known env →
  ∃ (writer : Writer) (forceColors : bool) (w' : World),
    screenLoggerHook env lvl w
    = (Returned (screen_hook writer forceColors lvl), w') ∧
    std w' = std w.
Proof.
  intros Hknown. unfold screenLoggerHook, Stdout_Stat_call. run.
  destruct (String.eqb_spec (GOOS env) "windows") as [Hwin|Hnot].
  - exists AnsiColorStdout, true. eexists. split; [reflexivity|done].
  - destruct Hknown as [Hwin|[mode Hmode]]; [done|].
    rewrite Hmode. cbn.
    exists Stdout, (negb (N.land mode ModeCharDevice =? 0)).
    destruct (N.land mode ModeCharDevice =? 0); cbn;
      eexists; (split; [reflexivity|done]).
Qed.

Lemma Levels_screen_hook (writer : Writer) (forceColors : bool)
    (lvl S : Level) :
  S ∈ Levels (screen_hook writer forceColors lvl) ↔ S ∈ AllLevels ∧ S ≤ lvl.
Proof. apply elem_of_Levels_SetLevel. Qed.

Lemma DisableTimestamp_screen_hook (writer : Writer) (forceColors : bool)
    (lvl : Level) :
  DisableTimestamp (Formatter (screen_hook writer forceColors lvl))
  = (lvl <? DebugLevel).
Proof. unfold screen_hook. by rewrite SetLevel_eq. Qed.

(** C6, as amended.  The formatter of the screen hook leaves the
    timestamp out exactly when the level is strictly below Debug (Panic,
    Fatal, Error, Warning or Info); at Debug and at Trace it is kept. *)
Theorem screenLoggerHook_timestamp (lvl : Level) (w : World) :
  Stdout_known env →
  ∃ (h : loghook) (w' : World),
    screenLoggerHook env lvl w = (Returned h, w') ∧
    (DisableTimestamp (Formatter h) = true ↔ lvl < DebugLevel).
Proof.
  intros Hknown.
  destruct (screenLoggerHook_run lvl w Hknown)
    as (writer & forceColors & w' & Heq & _).
  eexists _, w'. split; [exact Heq|].
  rewrite DisableTimestamp_screen_hook. apply N.ltb_lt.
Qed.

(** ** The log file and the initialisation *)

Lemma LogFile_fails_run (err : Error) (w : World) :
  LogFile_fails env err →
  ∃ w' : World,
    LogFile env w = (Returned (None, Some err), w') ∧ std w' = std w.
Proof.
  unfold LogFile_fails, LogFile, EnsureDir, OpenFile. run.
  intros [(e & Hdir & ->)|(Hdir & e & Hopen & ->)]; rewrite Hdir.
  - eexists. split; [reflexivity|done].
  - cbn. rewrite Hopen. eexists. split; [reflexivity|done].
Qed.

Lemma LogFile_run (w : World) :
  ∃ (r : option Writer * option Error) (w' : World),
    LogFile env w = (Returned r, w') ∧ std w' = std w.
Proof.
  unfold LogFile, EnsureDir, OpenFile, Write. run.
  destruct (cache_EnsureDir env (cache_Dir env)) as [e|].
  - eexists _, _. split; [reflexivity|done].
  - cbn. destruct (os_OpenFile env _ _ _) as [e|]; cbn;
      eexists _, _; (split; [reflexivity|done]).
Qed.

Lemma initFileLogger_fails (err : Error) (w : World) :
  LogFile_fails env err →
  ∃ w' : World,
    initFileLogger env w = (Returned (Some err), w') ∧ std w' = std w.
Proof.
  intros Hfails.
  destruct (LogFile_fails_run err w Hfails) as (w' & Heq & Hstd).
  unfold initFileLogger. run. rewrite Heq. by exists w'.
Qed.

Lemma initFileLogger_run (w : World) :
  ∃ (err : option Error) (w' : World),
    initFileLogger env w = (Returned err, w') ∧
    (Hooks (std w') = Hooks (std w) ∨
     ∃ lf : option Writer,
       Hooks (std w')
       = LevelHooks_Add (Hooks (std w)) (fileLoggerHook lf)).
Proof.
  destruct (LogFile_run w) as ([lf [e|]] & w' & Heq & Hstd);
    unfold initFileLogger; run; rewrite Heq.
  - exists (Some e), w'. split; [done|]. left. by rewrite Hstd.
  - unfold AddHook. run. eexists None, _. split; [reflexivity|].
    right. exists lf. cbn. by rewrite Hstd.
Qed.

(** Up to the file logger, [initLogging] and [initSilentLogging] set the
    standard logger to level Trace and output [io.Discard], and add the
    screen hook of the level they read from the context. *)
Lemma initLogging_run (ctx : gmap string bool) (w : World) :
  Stdout_known env →
  ∃ (writer : Writer) (forceColors : bool) (wa wb wm : World),
    let h := screen_hook writer forceColors (logLevelFromCtx ctx InfoLevel) in
    screenLoggerHook env (logLevelFromCtx ctx InfoLevel) wa = (Returned h, wb) ∧
    initLogging env ctx w = initFileLogger env wm ∧
    std wm
    = {| Out := Discard; Level_ := TraceLevel;
         Hooks := LevelHooks_Add (Hooks (std w)) h |}.
Proof.
  intros Hknown.
  unfold initLogging, initScreenLogger, log_SetLevel, log_SetOutput. run.
  match goal with
  | |- context [screenLoggerHook env ?lvl ?w0] =>
      destruct (screenLoggerHook_run lvl w0 Hknown)
        as (writer & forceColors & w1 & Heq & Hstd);
      rewrite Heq
  end.
  exists writer, forceColors. eexists _, w1, _.
  split; [exact Heq|]. split; [reflexivity|].
  unfold AddHook. run. cbn. by rewrite Hstd.
Qed.

Lemma initSilentLogging_run (ctx : gmap string bool) (w : World) :
  Stdout_known env →
  ∃ (writer : Writer) (forceColors : bool) (wa wb wm : World),
    let h := screen_hook writer forceColors (logLevelFromCtx ctx FatalLevel) in
    screenLoggerHook env (logLevelFromCtx ctx FatalLevel) wa = (Returned h, wb) ∧
    initSilentLogging env ctx w = initFileLogger env wm ∧
    std wm
    = {| Out := Discard; Level_ := TraceLevel;
         Hooks := LevelHooks_Add (Hooks (std w)) h |}.
Proof.
  intros Hknown.
  unfold initSilentLogging, initScreenLogger, log_SetLevel, log_SetOutput.
  run. unfold set_exec_DisableRedact at 1. cbn.
  match goal with
  | |- context [screenLoggerHook env ?lvl ?w0] =>
      destruct (screenLoggerHook_run lvl w0 Hknown)
        as (writer & forceColors & w1 & Heq & Hstd);
      rewrite Heq
  end.
  exists writer, forceColors. eexists _, w1, _.
  split; [exact Heq|]. split; [reflexivity|].
  unfold AddHook. run. cbn. by rewrite Hstd.
Qed.

Lemma registers_screen_hook_intro (init : M (option Error))
    (w wa wb wm : World) (writer : Writer) (forceColors : bool) (T : Level) :
  screenLoggerHook env T wa
  = (Returned (screen_hook writer forceColors T), wb) →
  init w = initFileLogger env wm →
  Hooks (std wm)
  = LevelHooks_Add (Hooks (std w)) (screen_hook writer forceColors T) →
  registers_screen_hook env init w T.
Proof.
  intros Hbuilt Hinit Hhooks.
  destruct (initFileLogger_run wm) as (err & w' & Hfile & Hw').
  exists (screen_hook writer forceColors T), wa, wb, err, w'.
  split; [done|]. split.
  { intros S HS. rewrite Levels_screen_hook. tauto. }
  split; [by rewrite Hinit|].
  rewrite <- Hhooks. destruct Hw' as [->|[lf ->]]; eauto.
Qed.

(** C9. The threshold of the screen hook is Trace when the option
    [trace] is set, else Debug when [debug] is set, else the default:
    Info in [initLogging], Fatal in [initSilentLogging]. *)
Theorem screen_threshold_from_ctx (ctx : gmap string bool) (w : World) :
  Stdout_known env →
  let threshold (defaultLevel : Level) : Level :=
    if ctx_Bool ctx "trace" then TraceLevel
    else if ctx_Bool ctx "debug" then DebugLevel
    else defaultLevel in
  registers_screen_hook env (initLogging env ctx) w (threshold InfoLevel) ∧
  registers_screen_hook env (initSilentLogging env ctx) w
    (threshold FatalLevel).
Proof.
  intros Hknown threshold. split.
  - destruct (initLogging_run ctx w Hknown)
      as (writer & forceColors & wa & wb & wm & Hbuilt & Hinit & Hstd).
    eapply registers_screen_hook_intro; [exact Hbuilt|exact Hinit|].
    by rewrite Hstd.
  - destruct (initSilentLogging_run ctx w Hknown)
      as (writer & forceColors & wa & wb & wm & Hbuilt & Hinit & Hstd).
    eapply registers_screen_hook_intro; [exact Hbuilt|exact Hinit|].
    by rewrite Hstd.
Qed.

(** C10. When [LogFile] fails, [initLogging] returns its error, and the
    screen hook it registered before stays registered: the hooks of the
    standard logger are those from before with the screen hook added,
    not those from before. *)
Theorem initLogging_not_rolled_back (ctx : gmap string bool) (w : World)
    (err : Error) :
  Stdout_known env →
  LogFile_fails env err →
  (∀ w0 : World, (LogFile env w0).1 = Returned (None, Some err)) ∧
  ∃ (h : loghook) (wa wb w' : World),
    screenLoggerHook env (logLevelFromCtx ctx InfoLevel) wa
    = (Returned h, wb) ∧
    initLogging env ctx w = (Returned (Some err), w') ∧
    Hooks (std w') = LevelHooks_Add (Hooks (std w)) h ∧
    last (default [] (Hooks (std w') !! InfoLevel)) = Some h ∧
    Hooks (std w') ≠ Hooks (std w).
Proof.
  intros Hknown Hfails. split.
  { intros w0. destruct (LogFile_fails_run err w0 Hfails) as (w' & -> & _).
    done. }
  destruct (initLogging_run ctx w Hknown)
    as (writer & forceColors & wa & wb & wm & Hbuilt & Hinit & Hstd).
  destruct (initFileLogger_fails err wm Hfails) as (w' & Hfile & Hw').
  eexists _, wa, wb, w'. split; [exact Hbuilt|].
  split; [by rewrite Hinit|].
  assert (Hooks (std w')
          = LevelHooks_Add (Hooks (std w))
              (screen_hook writer forceColors
                 (logLevelFromCtx ctx InfoLevel))) as Hhooks.
  { by rewrite Hw', Hstd. }
  split; [exact Hhooks|].
  assert (last (default [] (Hooks (std w') !! InfoLevel))
          = Some (screen_hook writer forceColors
                    (logLevelFromCtx ctx InfoLevel))) as Hlast.
  { rewrite Hhooks. unfold screen_hook at 1.
    rewrite LevelHooks_Add_lookup. rewrite decide_True.
    - cbn [default from_option id]. apply last_snoc.
    - apply elem_of_Levels_SetLevel. split.
      + rewrite list_elem_of_In. simpl. tauto.
      + unfold logLevelFromCtx, InfoLevel, DebugLevel, TraceLevel.
        repeat case_match; lia. }
  split; [exact Hlast|].
  intros Hsame. rewrite Hsame in Hlast. rewrite Hsame in Hhooks.
  assert (default [] (Hooks (std w) !! InfoLevel)
          = default [] (Hooks (std w) !! InfoLevel)
            ++ [screen_hook writer forceColors
                  (logLevelFromCtx ctx InfoLevel)]) as Hgrow.
  { rewrite Hhooks at 1. unfold screen_hook at 1.
    rewrite LevelHooks_Add_lookup. rewrite decide_True; [done|].
    apply elem_of_Levels_SetLevel. split.
    - rewrite list_elem_of_In. simpl. tauto.
    - unfold logLevelFromCtx, InfoLevel, DebugLevel, TraceLevel.
      repeat case_match; lia. }
  apply (f_equal length) in Hgrow. rewrite length_app in Hgrow.
  simpl in Hgrow. lia.
Qed.

(** ** [configReader] *)

Lemma calls_record_all (evs : list Event) (w : World) :
  calls (record_all evs w) = calls w ++ evs.
Proof.
  revert w. induction evs as [|e evs IH]; intros w; cbn.
  - by rewrite app_nil_r.
  - unfold record_all in IH. rewrite IH, calls_record.
    by rewrite <- app_assoc.
Qed.

Lemma variants_eq (f : string) :
  variants f
  = f :: (if decide (f = "k0sctl.yaml") then ["k0sctl.yml"] else []).
Proof.
  unfold variants. destruct (String.eqb_spec f "k0sctl.yaml") as [->|Hne].
  - done.
  - by rewrite decide_False.
Qed.

(** Candidates that [os.Stat] does not find are passed over. *)
Lemma configReader_range_skip (skipped rest : list string) (w : World) :
  Forall (fun c => os_Stat env c ≠ None) skipped →
  configReader_range env (skipped ++ rest) w
  = configReader_range env rest (record_all (CallStat <$> skipped) w).
Proof.
  intros Hskip. revert w.
  induction Hskip as [|c skipped Hc Hskip IH]; intros w; [done|].
  cbn [app configReader_range fmap list_fmap]. unfold Stat at 1. run.
  destruct (os_Stat env c) as [e|]; [|done].
  rewrite IH. done.
Qed.

(** The body of the loop at a candidate that [os.Stat] finds. *)
Lemma configReader_range_found (fn : string) (rest : list string)
    (w : World) :
  os_Stat env fn = None →
  configReader_range env (fn :: rest) w
  = match filepath_Abs env fn with
    | inl e =>
        (Returned (Some (None, Some e)),
         record_all [CallStat fn; CallAbs fn] w)
    | inr fp =>
        (Returned (Some (match os_Open env fp with
                         | Some e => (None, Some e)
                         | None => (Some (OpenedFile fp), None)
                         end)),
         record_all [CallStat fn; CallAbs fn; CallOpen fp] w)
    end.
Proof.
  intros Hfound. cbn [configReader_range]. unfold Stat, Abs, Open. run.
  rewrite Hfound. cbn.
  destruct (filepath_Abs env fn) as [e|fp]; [done|]. cbn.
  by destruct (os_Open env fp).
Qed.

Lemma configReader_range_none (cands : list string) (w : World) :
  Forall (fun c => os_Stat env c ≠ None) cands →
  configReader_range env cands w
  = (Returned None, record_all (CallStat <$> cands) w).
Proof.
  intros Hnone.
  rewrite <- (app_nil_r cands) at 1.
  by rewrite configReader_range_skip.
Qed.

Lemma configReader_path (f : string) (w : World) :
  f ≠ "-" →
  configReader env f w
  = match configReader_range env (variants f) w with
    | (Returned (Some result), w') => (Returned result, w')
    | (Returned None, w') =>
        (Returned (None, Some "failed to locate configuration"), w')
    | (Panicked msg, w') => (Panicked msg, w')
    end.
Proof.
  intros Hf. unfold configReader.
  destruct (String.eqb_spec f "-") as [?|_]; [done|]. run.
  by destruct (configReader_range env (variants f) w) as [[[r|]|msg] w'].
Qed.

(** [configReader] returns, and what it returns is a stream without an
    error or an error without a stream. *)
Lemma configReader_range_result (cands : list string) (w : World) :
  ∃ (r : option (option ReadCloser * option Error)) (w' : World),
    configReader_range env cands w = (Returned r, w') ∧
    (r = None ∨
     (∃ s : ReadCloser, r = Some (Some s, None)) ∨
     (∃ e : Error, r = Some (None, Some e))).
Proof.
  revert w. induction cands as [|c cands IH]; intros w.
  - eexists _, _. split; [reflexivity|]. by left.
  - destruct (os_Stat env c) as [e|] eqn:Hc.
    + change (c :: cands) with ([c] ++ cands).
      rewrite (configReader_range_skip [c] cands w).
      * apply IH.
      * constructor; [by rewrite Hc|constructor].
    + rewrite (configReader_range_found c cands w Hc).
      destruct (filepath_Abs env c) as [e|fp].
      * eexists _, _. split; [reflexivity|]. right. right. by exists e.
      * eexists _, _. split; [reflexivity|]. right.
        destruct (os_Open env fp) as [e|]; [right|left]; eauto.
Qed.

(** C2. For a token other than [-] the candidates are the token, and
    [k0sctl.yml] after it exactly when the token is [k0sctl.yaml].  They
    are examined in order; those [os.Stat] does not find are passed over;
    the first it finds is made absolute, opened and returned, an error
    of either step being returned in its place; the candidates after it
    are not examined. *)
Theorem configReader_first_existing (f : string) (skipped : list string)
    (fn : string) (rest : list string) (w : World) :
  f ≠ "-" →
  variants f = skipped ++ fn :: rest →
  Forall (fun c => os_Stat env c ≠ None) skipped →
  os_Stat env fn = None →
  variants f
  = f :: (if decide (f = "k0sctl.yaml") then ["k0sctl.yml"] else []) ∧
  ∃ (r : option ReadCloser * option Error) (w' : World),
    configReader env f w = (Returned r, w') ∧
    calls w'
    = calls w ++ (CallStat <$> skipped) ++ [CallStat fn; CallAbs fn]
      ++ match filepath_Abs env fn with
         | inr fp => [CallOpen fp]
         | inl _ => []
         end ∧
    r = match filepath_Abs env fn with
        | inl e => (None, Some e)
        | inr fp =>
            match os_Open env fp with
            | Some e => (None, Some e)
            | None => (Some (OpenedFile fp), None)
            end
        end.
Proof.
  intros Hf Hsplit Hskip Hfound. split; [apply variants_eq|].
  rewrite (configReader_path f w Hf), Hsplit.
  rewrite (configReader_range_skip skipped (fn :: rest) w Hskip).
  rewrite (configReader_range_found fn rest _ Hfound).
  destruct (filepath_Abs env fn) as [e|fp].
  - eexists _, _. split; [reflexivity|].
    rewrite !calls_record_all. rewrite <- !app_assoc. by rewrite app_nil_r.
  - eexists _, _. split; [reflexivity|].
    rewrite !calls_record_all. by rewrite <- !app_assoc.
Qed.

(** C3. For the token [-], when the standard input is not a character
    device [os.Stdin] is returned, without an error; when it is one, no
    stream is returned and the error is [can't read stdin], which is not
    the error of a configuration that is not found. *)
Theorem configReader_stdin (mode : FileMode) (w : World) :
  Stdin_Stat env = inr mode →
  (N.land mode ModeCharDevice = 0 →
   configReader env "-" w
   = (Returned (Some Stdin, None), record CallStdinStat w)) ∧
  (N.land mode ModeCharDevice ≠ 0 →
   configReader env "-" w
   = (Returned (None, Some "can't read stdin"), record CallStdinStat w) ∧
   ∀ (f : string) (w0 : World),
     f ≠ "-" →
     Forall (fun c => os_Stat env c ≠ None) (variants f) →
     (configReader env f w0).1 ≠ (configReader env "-" w).1).
Proof.
  intros Hstat.
  assert (configReader env "-" w
          = (Returned (if N.land mode ModeCharDevice =? 0
                       then (Some Stdin, None)
                       else (None, Some "can't read stdin")),
             record CallStdinStat w)) as Heq.
  { unfold configReader, Stdin_Stat_call. cbn [String.eqb Ascii.eqb].
    cbn. run. rewrite Hstat. by destruct (_ =? _). }
  split; intros Hmode; rewrite Heq.
  - apply N.eqb_eq in Hmode. by rewrite Hmode.
  - apply N.eqb_neq in Hmode. rewrite Hmode. split; [done|].
    intros f w0 Hf Hnone.
    rewrite (configReader_path f w0 Hf).
    rewrite (configReader_range_none _ w0 Hnone). cbn. discriminate.
Qed.

(** C4. For a token other than [-], when [os.Stat] finds none of the
    candidates the error is [failed to locate configuration]; and for
    every token [configReader] returns either a stream and no error, or
    an error and no stream. *)
Theorem configReader_stream_or_error :
  (∀ (f : string) (w : World),
     f ≠ "-" →
     Forall (fun c => os_Stat env c ≠ None) (variants f) →
     ∃ w' : World,
       configReader env f w
       = (Returned (None, Some "failed to locate configuration"), w')) ∧
  (∀ (f : string) (w : World),
     ∃ (r : option ReadCloser) (e : option Error) (w' : World),
       configReader env f w = (Returned (r, e), w') ∧
       ((is_Some r ∧ e = None) ∨ (r = None ∧ is_Some e))).
Proof.
  split.
  - intros f w Hf Hnone.
    rewrite (configReader_path f w Hf).
    rewrite (configReader_range_none _ w Hnone). by eexists.
  - intros f w. destruct (decide (f = "-")) as [->|Hf].
    + unfold configReader, Stdin_Stat_call. cbn [String.eqb Ascii.eqb].
      cbn. run.
      destruct (Stdin_Stat env) as [e|mode]; cbn.
      * eexists _, _, _. split; [reflexivity|]. right. eauto.
      * destruct (N.land mode ModeCharDevice =? 0);
          eexists _, _, _; (split; [reflexivity|]); [left|right]; eauto.
    + rewrite (configReader_path f w Hf).
      destruct (configReader_range_result (variants f) w)
        as (r & w' & -> & [->|[[s ->]|[e ->]]]);
        eexists _, _, _; (split; [reflexivity|]); eauto.
Qed.

(** ** Outside the conditions above *)

(** Off Windows, when [os.Stdout.Stat()] fails, [fi] is [nil] and
    [screenLoggerHook] panics at [fi.Mode()], before any hook is built. *)
Lemma screenLoggerHook_Stat_error (lvl : Level) (e : Error) (w : World) :
  GOOS env ≠ "windows" →
  Stdout_Stat env = inl e →
  screenLoggerHook env lvl w
  = (Panicked "invalid memory address or nil pointer dereference",
     record CallStdoutStat w).
Proof.
  intros Hos Hstat. unfold screenLoggerHook, Stdout_Stat_call. run.
  destruct (String.eqb_spec (GOOS env) "windows") as [?|_]; [done|].
  by rewrite Hstat.
Qed.

(** When [os.Stdin.Stat()] fails, [configReader] returns that failure for
    the token [-]. *)
Lemma configReader_stdin_Stat_error (e : Error) (w : World) :
  Stdin_Stat env = inl e →
  configReader env "-" w
  = (Returned (None, Some ("can't stat stdin: " +:+ e)),
     record CallStdinStat w).
Proof.
  intros Hstat. unfold configReader, Stdin_Stat_call.
  cbn [String.eqb Ascii.eqb]. cbn. run. by rewrite Hstat.
Qed.

End Properties.

(** * Further properties of the code *)

Ltac run_M :=
  unfold mbind, mret, M_bind, M_ret, get_std, set_std, panic,
    Fprintf_Stderr, call;
  cbn beta iota.

(** ** [SetLevel], beyond membership *)

(** X1. The levels [SetLevel] leaves are a prefix of [log.AllLevels]: its
    first [min(level, Trace) + 1] entries, in that order.  So Panic is
    accepted at every threshold, and a threshold above Trace accepts what
    Trace accepts. *)
Theorem SetLevel_prefix (h : loghook) (level : Level) :
  Levels (SetLevel h level)
  = take (S (N.to_nat (N.min level TraceLevel))) AllLevels.
Proof.
  rewrite Levels_SetLevel.
  destruct (decide (level < 7)) as [Hlt|Hge].
  - assert (level = 0 ∨ level = 1 ∨ level = 2 ∨ level = 3 ∨ level = 4
            ∨ level = 5 ∨ level = 6) as Hcases by lia.
    destruct Hcases as [->|[->|[->|[->|[->|[->| ->]]]]]]; reflexivity.
  - replace (N.min level TraceLevel) with TraceLevel
      by (unfold TraceLevel; lia).
    change (take _ AllLevels) with AllLevels.
    unfold AllLevels, PanicLevel, FatalLevel, ErrorLevel, WarnLevel,
      InfoLevel, DebugLevel, TraceLevel.
    repeat (rewrite filter_cons_True by lia). done.
Qed.

(** X2. [SetLevel] starts from an empty list: a second call replaces what
    the first one set, and neither touches the writer or the formatter. *)
Theorem SetLevel_replaces (h : loghook) (T1 T2 : Level) :
  SetLevel (SetLevel h T1) T2 = SetLevel h T2 ∧
  hook_Writer (SetLevel h T2) = hook_Writer h ∧
  Formatter (SetLevel h T2) = Formatter h.
Proof. rewrite !SetLevel_eq. by destruct h. Qed.

Section MoreLogging.

Context (env : Env).

(** ** The screen hook: writer and colours *)

Lemma screenLoggerHook_eq (lvl : Level) (w : World) :
  Stdout_known env →
  screenLoggerHook env lvl w
  = (Returned (the_screen_hook env lvl), after_screenLoggerHook env w).
Proof.
  intros Hknown.
  unfold screenLoggerHook, Stdout_Stat_call, set_Colorize, set_phase_Colorize,
    the_screen_hook, after_screenLoggerHook, screen_writer, screen_forceColors.
  run_M.
  destruct (String.eqb_spec (GOOS env) "windows") as [Hwin|Hnot].
  - by rewrite bool_decide_eq_true_2 by done.
  - rewrite bool_decide_eq_false_2 by done.
    destruct Hknown as [Hwin|[mode Hmode]]; [done|].
    rewrite Hmode. cbn.
    by destruct (N.land mode ModeCharDevice =? 0).
Qed.

(** X3. On Windows the screen hook writes through the ANSI colour writer,
    forces colours and does not examine the standard output.  Elsewhere it
    writes to [os.Stdout], examines it once, and forces colours exactly when
    it is a character device.  When colours are forced, [Colorize] and
    [phase.Colorize] are switched on; otherwise they stay as they were.
    Nothing else of the process changes. *)
Theorem screenLoggerHook_colors (lvl : Level) (w : World) :
  Stdout_known env →
  let windows := bool_decide (GOOS env = "windows") in
  let terminal :=
    match Stdout_Stat env with
    | inr mode => negb (N.land mode ModeCharDevice =? 0)
    | inl _ => false
    end in
  let forceColors := windows || terminal in
  ∃ w' : World,
    screenLoggerHook env lvl w
    = (Returned (screen_hook (if windows then AnsiColorStdout else Stdout)
                   forceColors lvl), w') ∧
    Colorize w' = forceColors || Colorize w ∧
    phase_Colorize w' = forceColors || phase_Colorize w ∧
    std w' = std w ∧
    exec_DisableRedact w' = exec_DisableRedact w ∧
    rig_Log w' = rig_Log w ∧
    calls w' = calls w ++ (if windows then [] else [CallStdoutStat]).
Proof.
  intros Hknown windows terminal forceColors.
  exists (after_screenLoggerHook env w).
  split; [exact (screenLoggerHook_eq lvl w Hknown)|].
  subst forceColors windows terminal.
  unfold after_screenLoggerHook, screen_forceColors.
  destruct (bool_decide (GOOS env = "windows")); cbn;
    repeat split; try done.
  by rewrite app_nil_r.
Qed.

(** X4. Off Windows, when [os.Stdout.Stat()] fails, [initLogging] panics
    in [screenLoggerHook].  By then the standard logger is at level Trace
    with its output discarded; no hook has been added, [exec.DisableRedact]
    has not been assigned and the log file has not been touched. *)
Theorem initLogging_Stat_error_panics (ctx : gmap string bool) (e : Error)
    (w : World) :
  GOOS env ≠ "windows" →
  Stdout_Stat env = inl e →
  ∃ (msg : string) (w' : World),
    initLogging env ctx w = (Panicked msg, w') ∧
    std w' = {| Out := Discard; Level_ := TraceLevel; Hooks := Hooks (std w) |} ∧
    exec_DisableRedact w' = exec_DisableRedact w ∧
    calls w' = calls w ++ [CallStdoutStat].
Proof.
  intros Hos Hstat.
  unfold initLogging, initScreenLogger, log_SetLevel, log_SetOutput. run_M.
  rewrite (screenLoggerHook_Stat_error env _ e _ Hos Hstat).
  eexists _, _. split; [reflexivity|done].
Qed.

(** ** The log file *)


(** ** [initLogging] and [initSilentLogging], step by step *)

Lemma record_all_frame (evs : list Event) (w : World) :
  std (record_all evs w) = std w ∧
  exec_DisableRedact (record_all evs w) = exec_DisableRedact w ∧
  rig_Log (record_all evs w) = rig_Log w ∧
  Colorize (record_all evs w) = Colorize w ∧
  phase_Colorize (record_all evs w) = phase_Colorize w.
Proof.
  revert w. induction evs as [|e evs IH]; intros w; [done|].
  cbn. unfold record_all in IH. by destruct (IH (record e w)) as (-> & -> & -> & -> & ->).
Qed.

Lemma std_record_all (evs : list Event) (w : World) :
  std (record_all evs w) = std w.
Proof. apply record_all_frame. Qed.

Lemma record_all_app (evs1 evs2 : list Event) (w : World) :
  record_all (evs1 ++ evs2) w = record_all evs2 (record_all evs1 w).
Proof. unfold record_all. apply fold_left_app. Qed.

Lemma initLogging_eq (ctx : gmap string bool) (w : World) :
  Stdout_known env →
  initLogging env ctx w
  = initFileLogger env
      (before_initFileLogger env ctx (logLevelFromCtx ctx InfoLevel) w).
Proof.
  intros Hknown.
  unfold initLogging, initScreenLogger, log_SetLevel, log_SetOutput. run_M.
  rewrite (screenLoggerHook_eq _ _ Hknown).
  unfold before_initFileLogger, after_screenLoggerHook, AddHook. run_M.
  by destruct (bool_decide (GOOS env = "windows")).
Qed.

Lemma initSilentLogging_eq (ctx : gmap string bool) (w : World) :
  Stdout_known env →
  initSilentLogging env ctx w
  = initFileLogger env
      (before_initFileLogger env ctx (logLevelFromCtx ctx FatalLevel) w).
Proof.
  intros Hknown.
  unfold initSilentLogging, initScreenLogger, log_SetLevel, log_SetOutput.
  run_M. unfold set_exec_DisableRedact at 1. cbn beta iota.
  rewrite (screenLoggerHook_eq _ _ Hknown).
  unfold before_initFileLogger, after_screenLoggerHook, AddHook. run_M.
  by destruct (bool_decide (GOOS env = "windows")).
Qed.

Lemma initFileLogger_opens (w : World) :
  LogFile_opens env →
  initFileLogger env w
  = (Returned None,
     (AddHook (the_file_hook env)
        (record_all
           [CallEnsureDir (cache_Dir env);
            CallOpenFile (log_file_name env)
              [O_RDWR; O_CREATE; O_APPEND; O_SYNC] 384;
            CallWrite (FileWriter (log_file_name env)) (session_line env)]
           w)).2).
Proof.
  intros [Hdir Hopen].
  unfold initFileLogger, LogFile, EnsureDir, OpenFile, Write. run_M.
  unfold log_file_name in Hopen. rewrite Hdir. cbn. rewrite Hopen. reflexivity.
Qed.

(** X6. When the log file opens, [initLogging] returns no error.  The
    standard logger is then at level Trace with its output discarded, and
    has the screen hook and after it the file hook added to its hooks;
    [exec.DisableRedact] is the [no-redact] flag, rig has the standard
    logger.  The calls made are the examination of the standard output (off
    Windows), [cache.EnsureDir], [os.OpenFile] and the write of the session
    line to the log file. *)
Theorem initLogging_opens (ctx : gmap string bool) (w : World) :
  Stdout_known env →
  LogFile_opens env →
  ∃ w' : World,
    initLogging env ctx w = (Returned None, w') ∧
    std w'
    = {| Out := Discard; Level_ := TraceLevel;
         Hooks := LevelHooks_Add
                    (LevelHooks_Add (Hooks (std w))
                       (the_screen_hook env (logLevelFromCtx ctx InfoLevel)))
                    (the_file_hook env) |} ∧
    exec_DisableRedact w' = ctx_Bool ctx "no-redact" ∧
    rig_Log w' = Some StandardLogger ∧
    calls w'
    = calls w
      ++ (if bool_decide (GOOS env = "windows") then [] else [CallStdoutStat])
      ++ [CallEnsureDir (cache_Dir env);
          CallOpenFile (log_file_name env) [O_RDWR; O_CREATE; O_APPEND; O_SYNC] 384;
          CallWrite (FileWriter (log_file_name env)) (session_line env)].
Proof.
  intros Hknown Hopens.
  rewrite (initLogging_eq ctx w Hknown), (initFileLogger_opens _ Hopens).
  eexists. split; [reflexivity|].
  unfold AddHook. run_M. cbn [snd std exec_DisableRedact rig_Log calls].
  repeat split.
  rewrite calls_record_all. unfold before_initFileLogger. cbn [calls].
  unfold after_screenLoggerHook. cbn [calls].
  rewrite calls_record_all. by rewrite <- app_assoc.
Qed.

(** The hooks of a level after a successful [initLogging] on a logger
    without hooks: the screen hook if the level is within its threshold,
    then the file hook if the level is within Debug. *)
Lemma hooks_after_initLogging (ctx : gmap string bool) (w : World) (l : Level) :
  Stdout_known env →
  LogFile_opens env →
  Hooks (std w) = ∅ →
  let T := logLevelFromCtx ctx InfoLevel in
  default [] (Hooks (std (initLogging env ctx w).2) !! l)
  = (if decide (l ≤ N.min T TraceLevel) then [the_screen_hook env T] else [])
    ++ (if decide (l ≤ DebugLevel) then [the_file_hook env] else []).
Proof.
  intros Hknown Hopens Hempty T.
  rewrite (initLogging_eq ctx w Hknown), (initFileLogger_opens _ Hopens).
  unfold AddHook. run_M. cbn [snd std Hooks]. rewrite std_record_all.
  unfold before_initFileLogger. cbn [std Hooks]. rewrite Hempty.
  fold T. unfold the_file_hook, fileLoggerHook, the_screen_hook, screen_hook.
  rewrite !LevelHooks_Add_lookup, lookup_empty.
  rewrite !Levels_SetLevel.
  assert (l ∈ filter (fun l0 => l0 ≤ T) AllLevels ↔ l ≤ N.min T TraceLevel)
    as HT.
  { rewrite list_elem_of_filter, list_elem_of_In.
    unfold AllLevels, PanicLevel, FatalLevel, ErrorLevel, WarnLevel,
      InfoLevel, DebugLevel, TraceLevel. simpl. lia. }
  assert (l ∈ filter (fun l0 => l0 ≤ DebugLevel) AllLevels ↔ l ≤ DebugLevel)
    as HD.
  { rewrite list_elem_of_filter, list_elem_of_In.
    unfold AllLevels, PanicLevel, FatalLevel, ErrorLevel, WarnLevel,
      InfoLevel, DebugLevel, TraceLevel. simpl. lia. }
  destruct (decide (l ≤ N.min T TraceLevel)) as [H1|H1];
    destruct (decide (l ≤ DebugLevel)) as [H2|H2].
  - rewrite decide_True by (by apply HD).
    rewrite decide_True by (by apply HT). done.
  - rewrite decide_False by (by rewrite HD).
    rewrite decide_True by (by apply HT). done.
  - rewrite decide_True by (by apply HD).
    rewrite decide_False by (by rewrite HT). done.
  - rewrite decide_False by (by rewrite HD).
    rewrite decide_False by (by rewrite HT). done.
Qed.

Lemma the_screen_hook_Writer (lvl : Level) :
  hook_Writer (the_screen_hook env lvl) = Some (screen_writer env).
Proof. unfold the_screen_hook, screen_hook. by rewrite SetLevel_eq. Qed.

Lemma the_file_hook_Writer :
  hook_Writer (the_file_hook env) = Some (FileWriter (log_file_name env)).
Proof. unfold the_file_hook, fileLoggerHook. by rewrite SetLevel_eq. Qed.

Lemma Level_after_initLogging (ctx : gmap string bool) (w : World) :
  Stdout_known env →
  LogFile_opens env →
  Level_ (std (initLogging env ctx w).2) = TraceLevel.
Proof.
  intros Hknown Hopens.
  rewrite (initLogging_eq ctx w Hknown), (initFileLogger_opens _ Hopens).
  unfold AddHook. run_M. cbn [snd std Level_]. by rewrite std_record_all.
Qed.

(** X7. After a successful [initLogging] on a logger without hooks, an
    entry that both hooks can format and write goes to the screen when its
    level is within the threshold of the screen, and then to the log file
    when its level is within Debug; nothing else is called.  So at the
    default threshold Info a Debug entry reaches the file only, and a Trace
    entry reaches the file at no threshold. *)
Theorem log_entry_after_initLogging (ctx : gmap string bool) (w : World)
    (entry : Entry) (sline fline : string) :
  Stdout_known env →
  LogFile_opens env →
  Hooks (std w) = ∅ →
  let T := logLevelFromCtx ctx InfoLevel in
  let w' := (initLogging env ctx w).2 in
  let l := entry_Level entry in
  l ≤ TraceLevel →
  TextFormatter_Format env (Formatter (the_screen_hook env T)) entry
  = inr sline →
  TextFormatter_Format env (Formatter (the_file_hook env)) entry = inr fline →
  Writer_Write env (screen_writer env) sline = None →
  Writer_Write env (FileWriter (log_file_name env)) fline = None →
  log_entry env entry w'
  = (Returned tt,
     record_all
       ((if decide (l ≤ T) then [CallWrite (screen_writer env) sline] else [])
        ++ (if decide (l ≤ DebugLevel)
            then [CallWrite (FileWriter (log_file_name env)) fline] else []))
       w').
Proof.
  intros Hknown Hopens Hempty T w' l Hl Hsfmt Hffmt Hswrite Hfwrite.
  rewrite log_entry_eq, fireHooks_eq.
  subst w'. rewrite (Level_after_initLogging ctx w Hknown Hopens).
  fold l. apply N.leb_le in Hl as Hlb. rewrite Hlb.
  rewrite (hooks_after_initLogging ctx w l Hknown Hopens Hempty). fold T.
  set (w' := (initLogging env ctx w).2).
  assert (∀ w0, Fire env (the_screen_hook env T) entry w0
                = (Returned None, record (CallWrite (screen_writer env) sline) w0))
    as Hs.
  { intros w0.
    rewrite (Fire_formatted env _ _ entry sline w0
               (the_screen_hook_Writer T) Hsfmt).
    by rewrite Hswrite. }
  assert (∀ w0, Fire env (the_file_hook env) entry w0
                = (Returned None,
                   record (CallWrite (FileWriter (log_file_name env)) fline) w0))
    as Hf.
  { intros w0.
    rewrite (Fire_formatted env _ _ entry fline w0 the_file_hook_Writer Hffmt).
    by rewrite Hfwrite. }
  destruct (decide (l ≤ N.min T TraceLevel)) as [H1|H1];
    destruct (decide (l ≤ T)) as [H1'|H1']; try (exfalso; lia);
    destruct (decide (l ≤ DebugLevel)) as [H2|H2];
    cbn [app fire_each]; run_M; rewrite ?Hs, ?Hf; cbn beta iota;
    rewrite ?Hf; reflexivity.
Qed.

(** X8. With the [debug] or the [trace] option set, [initSilentLogging]
    does what [initLogging] does: same result, same process afterwards. *)
Theorem initSilentLogging_verbose (ctx : gmap string bool) (w : World) :
  Stdout_known env →
  ctx_Bool ctx "trace" || ctx_Bool ctx "debug" = true →
  initSilentLogging env ctx w = initLogging env ctx w.
Proof.
  intros Hknown Hflags.
  rewrite (initLogging_eq ctx w Hknown), (initSilentLogging_eq ctx w Hknown).
  unfold logLevelFromCtx.
  destruct (ctx_Bool ctx "trace"), (ctx_Bool ctx "debug"); done.
Qed.

(** ** Hooks and their writers *)

Lemma LevelHooks_Add_elem_of (hooks : gmap N (list loghook)) (h0 : loghook)
    (level l : Level) (h : loghook) :
  h ∈ default [] (LevelHooks_Add hooks (SetLevel h0 level) !! l) →
  h ∈ default [] (hooks !! l) ∨ h = SetLevel h0 level.
Proof.
  rewrite LevelHooks_Add_lookup.
  destruct (decide (l ∈ Levels (SetLevel h0 level))); [|by left].
  cbn. rewrite elem_of_app, list_elem_of_singleton. tauto.
Qed.

Lemma initFileLogger_hooks (w : World) :
  ∃ (r : option Error) (w' : World),
    initFileLogger env w = (Returned r, w') ∧
    (Hooks (std w') = Hooks (std w) ∨
     Hooks (std w') = LevelHooks_Add (Hooks (std w)) (the_file_hook env)).
Proof.
  unfold initFileLogger, LogFile, EnsureDir, OpenFile, Write, AddHook. run_M.
  destruct (cache_EnsureDir env (cache_Dir env)) as [e|].
  - eexists _, _. split; [reflexivity|]. by left.
  - cbn. destruct (os_OpenFile env _ _ _) as [e|]; cbn.
    + eexists _, _. split; [reflexivity|]. by left.
    + eexists _, _. split; [reflexivity|]. by right.
Qed.

Lemma hooks_have_writers_before_initFileLogger (ctx : gmap string bool)
    (T : Level) (w : World) :
  hooks_have_writers w →
  hooks_have_writers (before_initFileLogger env ctx T w).
Proof.
  intros Hinv l h. unfold before_initFileLogger. cbn [std Hooks].
  unfold the_screen_hook, screen_hook at 1.
  intros [Hold| ->]%LevelHooks_Add_elem_of.
  - by apply (Hinv l).
  - fold (screen_hook (screen_writer env) (screen_forceColors env) T).
    fold (the_screen_hook env T). rewrite the_screen_hook_Writer. eauto.
Qed.

Lemma hooks_have_writers_initFileLogger (w : World) :
  hooks_have_writers w →
  hooks_have_writers (initFileLogger env w).2.
Proof.
  intros Hinv l h.
  destruct (initFileLogger_hooks w) as (r & w' & -> & [Hsame|Hadd]);
    cbn [snd].
  - rewrite Hsame. apply Hinv.
  - rewrite Hadd. unfold the_file_hook at 1, fileLoggerHook at 1.
    intros [Hold| ->]%LevelHooks_Add_elem_of.
    + by apply (Hinv l).
    + fold (fileLoggerHook (Some (FileWriter (log_file_name env)))).
      fold (the_file_hook env). rewrite the_file_hook_Writer. eauto.
Qed.

(** X9. If every hook of the standard logger has a writer, this is still
    so after [initLogging] and after [initSilentLogging], whether the log
    file opens or not: the hooks they add have one. *)
Theorem initLogging_hooks_have_writers (ctx : gmap string bool) (w : World) :
  Stdout_known env →
  hooks_have_writers w →
  hooks_have_writers (initLogging env ctx w).2 ∧
  hooks_have_writers (initSilentLogging env ctx w).2.
Proof.
  intros Hknown Hinv.
  rewrite (initLogging_eq ctx w Hknown), (initSilentLogging_eq ctx w Hknown).
  split; by apply hooks_have_writers_initFileLogger,
                 hooks_have_writers_before_initFileLogger.
Qed.

Lemma Fire_returns (h : loghook) (entry : Entry) (w : World) :
  is_Some (hook_Writer h) →
  ∃ (r : option Error) (evs : list Event),
    Fire env h entry w = (Returned r, record_all evs w) ∧
    Forall is_output evs.
Proof.
  intros [dest Hdest].
  destruct (TextFormatter_Format env (Formatter h) entry) as [e|line] eqn:Hfmt.
  - rewrite (Fire_format_error env h entry e w Hfmt).
    eexists _, [_]. split; [reflexivity|]. by repeat constructor.
  - rewrite (Fire_formatted env h dest entry line w Hdest Hfmt).
    eexists _, [_]. split; [reflexivity|]. by repeat constructor.
Qed.

Lemma fire_each_returns (hs : list loghook) (entry : Entry) (w : World) :
  Forall (fun h => is_Some (hook_Writer h)) hs →
  ∃ (r : option Error) (evs : list Event),
    fire_each env hs entry w = (Returned r, record_all evs w) ∧
    Forall is_output evs.
Proof.
  intros Hhs. revert w.
  induction Hhs as [|h hs Hh Hhs IH]; intros w.
  - by exists None, [].
  - cbn [fire_each]. run_M.
    destruct (Fire_returns h entry w Hh) as (r & evs & -> & Hevs).
    destruct r as [e|].
    + by exists (Some e), evs.
    + destruct (IH (record_all evs w)) as (r' & evs' & -> & Hevs').
      exists r', (evs ++ evs'). rewrite record_all_app.
      split; [done|]. by apply Forall_app.
Qed.

Lemma log_entry_appends (entry : Entry) (w : World) :
  hooks_have_writers w →
  ∃ evs : list Event,
    log_entry env entry w = (Returned tt, record_all evs w) ∧
    Forall is_output evs.
Proof.
  intros Hinv. rewrite log_entry_eq.
  destruct (entry_Level entry <=? Level_ (std w)); [|by exists []].
  rewrite fireHooks_eq.
  destruct (fire_each_returns
              (default [] (Hooks (std w) !! entry_Level entry)) entry w)
    as (r & evs & -> & Hevs).
  { apply Forall_forall. intros h Hh. by apply (Hinv (entry_Level entry)). }
  destruct r as [e|].
  - exists (evs ++ [CallFprintfStderr ("Failed to fire hook: " +:+ e +:+ newline)]).
    rewrite record_all_app. split; [done|].
    apply Forall_app. split; [done|]. by repeat constructor.
  - by exists evs.
Qed.


(** ** [configReader], at its edges *)

(** X11. [configReader] never panics; it examines the standard input or
    examines, resolves and opens files, and does nothing else: it writes
    nowhere and leaves the logger and the other variables of the process
    alone. *)
Theorem configReader_only_looks (f : string) (w : World) :
  ∃ (r : option ReadCloser * option Error) (evs : list Event),
    configReader env f w = (Returned r, record_all evs w) ∧
    Forall is_lookup evs.
Proof.
  destruct (decide (f = "-")) as [->|Hf].
  - unfold configReader, Stdin_Stat_call. cbn [String.eqb Ascii.eqb]. cbn.
    run_M.
    destruct (Stdin_Stat env) as [e|mode]; cbn.
    + eexists _, [_]. split; [reflexivity|]. by repeat constructor.
    + destruct (N.land mode ModeCharDevice =? 0);
        eexists _, [_]; (split; [reflexivity|]); by repeat constructor.
  - rewrite (configReader_path env f w Hf).
    assert (∀ cands w0,
              ∃ r evs, configReader_range env cands w0
                       = (Returned r, record_all evs w0) ∧ Forall is_lookup evs)
      as Hrange.
    { induction cands as [|c cands IH]; intros w0.
      - exists None, []. by split.
      - destruct (os_Stat env c) as [e|] eqn:Hc.
        + change (c :: cands) with ([c] ++ cands).
          rewrite (configReader_range_skip env [c] cands w0)
            by (constructor; [by rewrite Hc|constructor]).
          destruct (IH (record_all (CallStat <$> [c]) w0)) as (r & evs & -> & Hevs).
          exists r, ((CallStat <$> [c]) ++ evs). rewrite record_all_app.
          split; [done|]. by constructor.
        + rewrite (configReader_range_found env c cands w0 Hc).
          destruct (filepath_Abs env c) as [e|fp];
            eexists _, _; (split; [reflexivity|]); by repeat constructor. }
    destruct (Hrange (variants f) w) as (r & evs & -> & Hevs).
    destruct r as [result|]; eexists _, evs; by split.
Qed.

(** X12. The fallback is for the default name only: for any other path
    that [os.Stat] does not find, [configReader] fails with [failed to
    locate configuration] after that one look, without trying another
    name.  (The empty path is such a path.) *)
Theorem configReader_no_fallback (f : string) (w : World) :
  f ≠ "-" →
  f ≠ "k0sctl.yaml" →
  os_Stat env f ≠ None →
  configReader env f w
  = (Returned (None, Some "failed to locate configuration"),
     record (CallStat f) w).
Proof.
  intros Hf Hdefault Hstat.
  rewrite (configReader_path env f w Hf), variants_eq.
  rewrite decide_False by done.
  rewrite (configReader_range_none env [f] w)
    by (constructor; [done|constructor]).
  done.
Qed.

End MoreLogging.

(** * The actions *)

Ltac run_P :=
  unfold mbind, mret, P_bind, P_ret, liftM, panicP, call_io,
    Context_Bool, Context_String;
  cbn beta iota.


Section MoreActions.

Context (env : Env) (deps : Deps).

(** ** [initConfig] *)

Lemma configReader_one_of (f : string) (w : World) :
  ∃ (r : option ReadCloser * option Error) (w' : World),
    configReader env f w = (Returned r, w') ∧
    ((∃ file : ReadCloser, r = (Some file, None)) ∨
     (∃ e : Error, r = (None, Some e))).
Proof.
  destruct (decide (f = "-")) as [->|Hf].
  - unfold configReader, Stdin_Stat_call. cbn [String.eqb Ascii.eqb]. cbn.
    run_M.
    destruct (Stdin_Stat env) as [e|mode]; cbn.
    + eexists _, _. split; [reflexivity|]. right. eauto.
    + destruct (N.land mode ModeCharDevice =? 0);
        eexists _, _; (split; [reflexivity|]); eauto.
  - rewrite (configReader_path env f w Hf).
    destruct (configReader_range_result env (variants f) w)
      as (r & w' & -> & [->|[[s ->]|[e ->]]]);
      eexists _, _; (split; [reflexivity|]); eauto.
Qed.

(** What [initConfig] does once [configReader] has answered for a path
    that is not empty. *)
Lemma initConfig_eq (p : Process) (f : string) :
  default EmptyString (ctx_Strings p !! "config") = f →
  f ≠ EmptyString →
  initConfig env deps p
  = match configReader env f (world p) with
    | (Panicked msg, w') => (Panicked msg, with_world p w')
    | (Returned (_, Some e), w') => (Returned (Some e), with_world p w')
    | (Returned (None, None), w') =>
        (Panicked "invalid memory address or nil pointer dereference",
         with_world p w')
    | (Returned (Some file, None), w') =>
        let p1 := record_io (CallReadAll file) (with_world p w') in
        match io_ReadAll deps file with
        | inl e => (Returned (Some e), record_io (CallClose file) p1)
        | inr content =>
            match flagSet_Set deps "config" content with
            | Some e => (Returned (Some e), record_io (CallClose file) p1)
            | None =>
                (Returned None,
                 record_io (CallClose file) (set_ctx_String "config" content p1))
            end
        end
    end.
Proof.
  intros Hf Hne. unfold initConfig, ReadAll, Close, Context_Set. run_P.
  rewrite Hf. destruct f as [|a f]; [done|].
  destruct (configReader env (String a f) (world p))
    as [[[[file|] [e|]]|msg] w']; try done.
  cbn.
  destruct (io_ReadAll deps file) as [e|content]; [done|]. cbn.
  by destruct (flagSet_Set deps "config" content).
Qed.

Lemma with_world_frame (p : Process) (w : World) :
  ctx_Bools (with_world p w) = ctx_Bools p ∧
  ctx_Strings (with_world p w) = ctx_Strings p ∧
  analytics_Client (with_world p w) = analytics_Client p ∧
  io_calls (with_world p w) = io_calls p.
Proof. done. Qed.

(** X14. [initConfig] does not panic.  With an empty [config] flag it
    returns no error and does nothing at all.  Otherwise it changes the
    [config] flag only, and only when it returns no error: on every error
    (of [configReader], of [io.ReadAll], of [ctx.Set]) the flags are as
    before.  The boolean flags and [analytics.Client] are never touched. *)
Theorem initConfig_keeps_context (p : Process) :
  (default EmptyString (ctx_Strings p !! "config") = EmptyString →
   initConfig env deps p = (Returned None, p)) ∧
  ∃ (r : option Error) (p' : Process),
    initConfig env deps p = (Returned r, p') ∧
    ctx_Bools p' = ctx_Bools p ∧
    analytics_Client p' = analytics_Client p ∧
    (∀ name : string,
       name ≠ "config" → ctx_Strings p' !! name = ctx_Strings p !! name) ∧
    (is_Some r → ctx_Strings p' = ctx_Strings p).
Proof.
  destruct (default EmptyString (ctx_Strings p !! "config")) as [|a f] eqn:Hf.
  { assert (initConfig env deps p = (Returned None, p)) as Heq.
    { unfold initConfig. run_P. by rewrite Hf. }
    split; [done|]. exists None, p. split; [done|].
    repeat split; try done. }
  split; [done|].
  rewrite (initConfig_eq p (String a f) Hf) by done.
  destruct (configReader_one_of (String a f) (world p))
    as (r & w' & -> & [[s ->]|[e' ->]]).
  - cbn zeta. destruct (io_ReadAll deps s) as [e|content].
    + eexists _, _. split; [reflexivity|]. by repeat split.
    + destruct (flagSet_Set deps "config" content) as [e|].
      * eexists _, _. split; [reflexivity|]. by repeat split.
      * eexists _, _. split; [reflexivity|]. cbn.
        repeat split; [|by intros [? ?]].
        intros name Hname. by rewrite lookup_insert_ne.
  - eexists _, _. split; [reflexivity|]. by repeat split.
Qed.

(** X15. [initConfig] reads and closes exactly the stream [configReader]
    opened for it, once each, in that order, whether reading or setting
    the flag fails or not; for the path [-] that stream is [os.Stdin].
    When [configReader] fails nothing is read or closed.  Besides the calls
    of [configReader] it makes no other call. *)
Theorem initConfig_closes_what_it_opens (p : Process) (f : string) :
  default EmptyString (ctx_Strings p !! "config") = f →
  f ≠ EmptyString →
  ∃ (r : option Error) (p' : Process),
    initConfig env deps p = (Returned r, p') ∧
    world p' = (configReader env f (world p)).2 ∧
    io_calls p'
    = io_calls p
      ++ match (configReader env f (world p)).1 with
         | Returned (Some file, _) => [CallReadAll file; CallClose file]
         | _ => []
         end.
Proof.
  intros Hf Hne. rewrite (initConfig_eq p f Hf Hne).
  destruct (configReader_one_of f (world p))
    as (r & w' & -> & [[s ->]|[e' ->]]); cbn [fst snd].
  - cbn zeta. destruct (io_ReadAll deps s) as [e|content].
    + eexists _, _. split; [reflexivity|]. cbn.
      by rewrite <- app_assoc.
    + destruct (flagSet_Set deps "config" content) as [e|];
        eexists _, _; (split; [reflexivity|]); cbn;
        by rewrite <- app_assoc.
  - eexists _, _. split; [reflexivity|]. cbn. by rewrite app_nil_r.
Qed.

(** X16. When [configReader] opens a stream for the path in the [config]
    flag, [io.ReadAll] reads it and the flag set accepts the value,
    [initConfig] returns no error and the [config] flag then reads as the
    content of the stream: what was a path is now the document. *)
Theorem initConfig_loads (p : Process) (f : string) (file : ReadCloser)
    (w' : World) (content : string) :
  default EmptyString (ctx_Strings p !! "config") = f →
  f ≠ EmptyString →
  configReader env f (world p) = (Returned (Some file, None), w') →
  io_ReadAll deps file = inr content →
  flagSet_Set deps "config" content = None →
  ∃ p' : Process,
    initConfig env deps p = (Returned None, p') ∧
    Context_String "config" p' = (Returned content, p') ∧
    ctx_Strings p' = <["config" := content]> (ctx_Strings p) ∧
    world p' = w'.
Proof.
  intros Hf Hne Hopen Hread Hset.
  rewrite (initConfig_eq p f Hf Hne), Hopen. cbn zeta.
  rewrite Hread, Hset. eexists. split; [reflexivity|].
  unfold Context_String. cbn. by rewrite lookup_insert_eq.
Qed.

(** X17. With the [config] flag at the value its declaration gives it,
    when [k0sctl.yaml] is not there and [k0sctl.yml] is, [initConfig] loads
    [k0sctl.yml]: it looks for the two names in that order, resolves, opens,
    reads and closes the second, and the flag then holds its content. *)
Theorem initConfig_default_falls_back (p : Process) (fp content : string) :
  ctx_Strings p !! string_Name configFlag = Some (string_Value configFlag) →
  os_Stat env "k0sctl.yaml" ≠ None →
  os_Stat env "k0sctl.yml" = None →
  filepath_Abs env "k0sctl.yml" = inr fp →
  os_Open env fp = None →
  io_ReadAll deps (OpenedFile fp) = inr content →
  flagSet_Set deps "config" content = None →
  ∃ p' : Process,
    initConfig env deps p = (Returned None, p') ∧
    ctx_Strings p' !! "config" = Some content ∧
    calls (world p')
    = calls (world p)
      ++ [CallStat "k0sctl.yaml"; CallStat "k0sctl.yml";
          CallAbs "k0sctl.yml"; CallOpen fp] ∧
    io_calls p'
    = io_calls p ++ [CallReadAll (OpenedFile fp); CallClose (OpenedFile fp)].
Proof.
  intros Hflag Hyaml Hyml Habs Hopen Hread Hset.
  assert (configReader env "k0sctl.yaml" (world p)
          = (Returned (Some (OpenedFile fp), None),
             record_all [CallStat "k0sctl.yaml"; CallStat "k0sctl.yml";
                         CallAbs "k0sctl.yml"; CallOpen fp] (world p)))
    as Hreader.
  { rewrite (configReader_path env "k0sctl.yaml" (world p)) by done.
    change (variants "k0sctl.yaml") with (["k0sctl.yaml"] ++ ["k0sctl.yml"]).
    rewrite (configReader_range_skip env ["k0sctl.yaml"] ["k0sctl.yml"])
      by (constructor; [done|constructor]).
    rewrite (configReader_range_found env "k0sctl.yml" [] _ Hyml).
    by rewrite Habs, Hopen. }
  assert (default EmptyString (ctx_Strings p !! "config") = "k0sctl.yaml")
    as Hf.
  { change "config" with (string_Name configFlag). by rewrite Hflag. }
  rewrite (initConfig_eq p "k0sctl.yaml" Hf) by done.
  rewrite Hreader. cbn zeta. rewrite Hread, Hset.
  eexists. split; [reflexivity|]. cbn.
  rewrite lookup_insert_eq. split; [done|].
  by rewrite <- !app_assoc.
Qed.

(** ** [initAnalytics] and the banners *)

(** X18. [initAnalytics], when every hook of the logger has a writer,
    returns without a panic and leaves the flags alone.  With
    [disable-telemetry] set, or with an empty [segment.WriteKey], it returns
    no error, asks for no client and leaves [analytics.Client] as it was.
    Otherwise it asks [segment.NewClient] once and logs nothing: an error is
    returned, with [analytics.Client] as it was; a client is stored, with no
    error. *)
Theorem initAnalytics_client (p : Process) :
  hooks_have_writers (world p) →
  ∃ (r : option Error) (p' : Process),
    initAnalytics env deps p = (Returned r, p') ∧
    ctx_Bools p' = ctx_Bools p ∧
    ctx_Strings p' = ctx_Strings p ∧
    if ctx_Bool (ctx_Bools p) "disable-telemetry"
       || bool_decide (segment_WriteKey deps = EmptyString)
    then r = None ∧
         analytics_Client p' = analytics_Client p ∧
         io_calls p' = io_calls p
    else world p' = world p ∧
         io_calls p' = io_calls p ++ [CallNewClient] ∧
         match segment_NewClient deps with
         | inl e => r = Some e ∧ analytics_Client p' = analytics_Client p
         | inr client => r = None ∧ analytics_Client p' = Some client
         end.
Proof.
  intros Hinv.
  unfold initAnalytics, log_Tracef, NewClient, set_analytics_Client. run_P.
  destruct (ctx_Bool (ctx_Bools p) "disable-telemetry").
  - match goal with
    | |- context [log_entry env ?entry (world p)] =>
        destruct (log_entry_appends env entry (world p) Hinv) as (evs & -> & _)
    end.
    eexists _, _. split; [reflexivity|]. by repeat split.
  - destruct (segment_WriteKey deps) as [|a key].
    + match goal with
      | |- context [log_entry env ?entry (world p)] =>
          destruct (log_entry_appends env entry (world p) Hinv) as (evs & -> & _)
      end.
      eexists _, _. split; [reflexivity|]. by repeat split.
    + rewrite bool_decide_eq_false_2 by done. cbn.
      destruct (segment_NewClient deps) as [e|client];
        eexists _, _; (split; [reflexivity|]); by repeat split.
Qed.

(** X19. [displayLogo] and [displayCopyright] never return an error, also
    when the writes to the standard output fail: a chain of actions always
    goes on past them.  All they do is print, to [os.Stdout]: the logo, the
    copyright line with the version, the telemetry notice unless
    [disable-telemetry] is set, and the two lines of the terms. *)
Theorem banners_never_abort (rest : list (P (option Error))) (p : Process) :
  let lines :=
    [logo deps +:+ newline;
     "k0sctl " +:+ version_Version deps
     +:+ " Copyright 2021, k0sctl authors." +:+ newline]
    ++ (if ctx_Bool (ctx_Bools p) "disable-telemetry" then []
        else ["Anonymized telemetry of usage will be sent to the authors."
              +:+ newline])
    ++ ["By continuing to use k0sctl you agree to these terms:" +:+ newline;
        "https://k0sproject.io/licenses/eula" +:+ newline] in
  actions (displayLogo env deps :: displayCopyright env deps :: rest) p
  = actions rest
      (with_world p (record_all (CallWrite Stdout <$> lines) (world p))).
Proof.
  intros lines. subst lines.
  cbn [actions]. unfold displayLogo, displayCopyright, Println, Printf, Write.
  run_P. run_M. cbn.
  by destruct (ctx_Bool (ctx_Bools p) "disable-telemetry").
Qed.

(** ** The actions together *)

Lemma configReader_stdin_eq (w : World) :
  configReader env "-" w
  = (Returned (match Stdin_Stat env with
               | inl e => (None, Some ("can't stat stdin: " +:+ e))
               | inr mode =>
                   if N.land mode ModeCharDevice =? 0 then (Some Stdin, None)
                   else (None, Some "can't read stdin")
               end),
     record CallStdinStat w).
Proof.
  unfold configReader, Stdin_Stat_call. cbn [String.eqb Ascii.eqb]. cbn.
  run_M. destruct (Stdin_Stat env) as [e|mode]; [done|]. cbn.
  by destruct (N.land mode ModeCharDevice =? 0).
Qed.

(** X20. With the [config] flag [-], [initConfig] examines the standard
    input once.  If that fails, or if the standard input is a character
    device, it returns the error at once: the standard input is neither
    read nor closed, and the flag is as before.  Only a standard input that
    is not a character device is read, to its end, and then closed. *)
Theorem initConfig_stdin (p : Process) :
  ctx_Strings p !! "config" = Some "-" →
  ∃ (r : option Error) (p' : Process),
    initConfig env deps p = (Returned r, p') ∧
    world p' = record CallStdinStat (world p) ∧
    match Stdin_Stat env with
    | inl e =>
        r = Some ("can't stat stdin: " +:+ e) ∧
        io_calls p' = io_calls p ∧ ctx_Strings p' = ctx_Strings p
    | inr mode =>
        if N.land mode ModeCharDevice =? 0
        then io_calls p' = io_calls p ++ [CallReadAll Stdin; CallClose Stdin]
        else r = Some "can't read stdin" ∧
             io_calls p' = io_calls p ∧ ctx_Strings p' = ctx_Strings p
    end.
Proof.
  intros Hflag.
  rewrite (initConfig_eq p "-") by (by rewrite ?Hflag).
  rewrite configReader_stdin_eq.
  destruct (Stdin_Stat env) as [e|mode].
  - eexists _, _. split; [reflexivity|]. by repeat split.
  - destruct (N.land mode ModeCharDevice =? 0).
    + cbn zeta. destruct (io_ReadAll deps Stdin) as [e|content].
      * eexists _, _. split; [reflexivity|]. cbn. by rewrite <- app_assoc.
      * destruct (flagSet_Set deps "config" content) as [e|];
          eexists _, _; (split; [reflexivity|]); cbn;
          by rewrite <- app_assoc.
    + eexists _, _. split; [reflexivity|]. by repeat split.
Qed.

(** X21. When the log file cannot be opened, a chain of actions that
    starts with [initLogging] stops there with the error of [LogFile]: none
    of the actions after it runs, whatever they are, so the flags,
    [analytics.Client] and the log of reads and closes are as before. *)
Theorem actions_stop_at_initLogging (rest : list (P (option Error)))
    (p : Process) (err : Error) :
  Stdout_known env →
  LogFile_fails env err →
  ∃ p' : Process,
    actions (initLogging_action env :: rest) p = (Returned (Some err), p') ∧
    ctx_Bools p' = ctx_Bools p ∧
    ctx_Strings p' = ctx_Strings p ∧
    analytics_Client p' = analytics_Client p ∧
    io_calls p' = io_calls p.
Proof.
  intros Hknown Hfails.
  cbn [actions]. unfold initLogging_action. run_P.
  rewrite (initLogging_eq env (ctx_Bools p) (world p) Hknown).
  match goal with
  | |- context [initFileLogger env ?wm] =>
      destruct (initFileLogger_fails env err wm Hfails) as (w' & -> & _)
  end.
  eexists. split; [reflexivity|]. by repeat split.
Qed.

End MoreActions.

(** * Examples

    The theorems above, applied in the sample surroundings. *)

Ltac elem_of_list :=
  repeat first [apply list_elem_of_here | apply list_elem_of_further].

Lemma SetLevel_accepts_example :
  WarnLevel ∈ AllLevels ∧
  (WarnLevel ∈ Levels (SetLevel (fileLoggerHook None) InfoLevel)
   ↔ WarnLevel ≤ InfoLevel).
Proof.
  assert (WarnLevel ∈ AllLevels) as H by elem_of_list.
  split; [exact H|].
  exact (proj1 (SetLevel_accepts (fileLoggerHook None)) WarnLevel InfoLevel H).
Defined.

Lemma SetLevel_monotone_example :
  InfoLevel ≤ DebugLevel ∧
  (Levels (SetLevel (fileLoggerHook None) InfoLevel)
   ⊆ Levels (SetLevel (fileLoggerHook (Some sample_log)) DebugLevel)).
Proof.
  assert (InfoLevel ≤ DebugLevel) as H by (unfold InfoLevel, DebugLevel; lia).
  split; [exact H|]. exact (SetLevel_monotone _ _ _ _ H).
Defined.

Lemma Fire_writes_once_or_not_example :
  let h := fileLoggerHook (Some sample_log) in
  hook_Writer h = Some sample_log ∧
  Fire terminal_env h (hello InfoLevel) fresh_world
  = (Returned None,
     record (CallWrite sample_log ("msg=hello" +:+ newline)) fresh_world) ∧
  Fire terminal_env h (wordless InfoLevel) fresh_world
  = (Returned (Some "no message"),
     record (CallFprintfStderr "Unable to format log entry: no message")
       fresh_world).
Proof.
  intros h.
  assert (hook_Writer h = Some sample_log) as H by reflexivity.
  split; [exact H|]. split.
  - exact (proj1 (proj2 (Fire_writes_once_or_not terminal_env h sample_log
                           (hello InfoLevel) fresh_world H)
                    ("msg=hello" +:+ newline) eq_refl)).
  - exact (proj1 (proj1 (Fire_writes_once_or_not terminal_env h sample_log
                           (wordless InfoLevel) fresh_world H)
                    "no message" eq_refl)).
Defined.

Lemma fileLoggerHook_writes_Debug_and_above_example :
  let hook := fileLoggerHook (Some sample_log) in
  let w1 := (AddHook hook quiet_world).2 in
  DebugLevel ∈ severities ∧
  TraceLevel ∈ severities ∧
  (∃ evs : list Event,
     calls (log_entry pipe_env (hello DebugLevel) w1).2 = evs ∧
     written sample_log evs = ["msg=hello" +:+ newline]) ∧
  (∃ evs : list Event,
     calls (log_entry pipe_env (hello TraceLevel) w1).2 = evs ∧
     written sample_log evs = []).
Proof.
  intros hook w1.
  assert (DebugLevel ∈ severities) as HD by elem_of_list.
  assert (TraceLevel ∈ severities) as HT by elem_of_list.
  split; [exact HD|]. split; [exact HT|]. split.
  - destruct (fileLoggerHook_writes_Debug_and_above pipe_env sample_log
                (hello DebugLevel) ("msg=hello" +:+ newline) quiet_world
                HD eq_refl eq_refl eq_refl)
      as (_ & _ & evs & _ & Hcalls & Hwritten).
    exists evs. split; [exact Hcalls | exact Hwritten].
  - destruct (fileLoggerHook_writes_Debug_and_above pipe_env sample_log
                (hello TraceLevel) ("msg=hello" +:+ newline) quiet_world
                HT eq_refl eq_refl eq_refl)
      as (_ & _ & evs & _ & Hcalls & Hwritten).
    exists evs. split; [exact Hcalls | exact Hwritten].
Defined.

Lemma Stdout_known_terminal : Stdout_known terminal_env.
Proof. right. eexists. reflexivity. Defined.

Lemma Stdout_known_pipe : Stdout_known pipe_env.
Proof. right. eexists. reflexivity. Defined.

Lemma screenLoggerHook_timestamp_example :
  Stdout_known terminal_env ∧
  ∃ (h : loghook) (w' : World),
    screenLoggerHook terminal_env InfoLevel fresh_world = (Returned h, w') ∧
    (DisableTimestamp (Formatter h) = true ↔ InfoLevel < DebugLevel).
Proof.
  split; [exact Stdout_known_terminal|].
  exact (screenLoggerHook_timestamp terminal_env InfoLevel fresh_world
           Stdout_known_terminal).
Defined.

(** C6, as the specification words it, fails at the level Debug: Debug is
    at or below Debug, and the screen hook of level Debug keeps the
    timestamp. *)
Lemma screenLoggerHook_Debug_keeps_timestamp :
  ∃ (h : loghook) (w' : World),
    screenLoggerHook terminal_env DebugLevel fresh_world = (Returned h, w') ∧
    DisableTimestamp (Formatter h) = false ∧
    ¬ (DisableTimestamp (Formatter h) = true ↔ DebugLevel ≤ DebugLevel).
Proof.
  eexists _, _. split; [vm_compute; reflexivity|].
  split; [reflexivity|].
  intros [_ H]. specialize (H (N.le_refl _)). discriminate H.
Qed.

Lemma screen_threshold_from_ctx_example :
  let ctx : gmap string bool := {["debug" := true]} in
  Stdout_known terminal_env ∧
  registers_screen_hook terminal_env (initLogging terminal_env ctx)
    fresh_world DebugLevel ∧
  registers_screen_hook terminal_env (initSilentLogging terminal_env ctx)
    fresh_world DebugLevel.
Proof.
  intros ctx. split; [exact Stdout_known_terminal|].
  exact (screen_threshold_from_ctx terminal_env ctx fresh_world
           Stdout_known_terminal).
Defined.

Lemma initLogging_not_rolled_back_example :
  let fn := "/home/k0s/.cache/k0sctl/k0sctl.log" in
  let err := "Failed to open log " +:+ fn +:+ ": open " +:+ fn
             +:+ ": permission denied" in
  Stdout_known terminal_env ∧
  LogFile_fails terminal_env err ∧
  ∃ w' : World,
    initLogging terminal_env ∅ fresh_world = (Returned (Some err), w') ∧
    Hooks (std w') ≠ Hooks (std fresh_world).
Proof.
  intros fn err.
  assert (LogFile_fails terminal_env err) as Hfails.
  { right. split; [reflexivity|]. eexists. split; reflexivity. }
  split; [exact Stdout_known_terminal|]. split; [exact Hfails|].
  destruct (initLogging_not_rolled_back terminal_env ∅ fresh_world err
              Stdout_known_terminal Hfails)
    as (_ & h & wa & wb & w' & _ & Hinit & _ & _ & Hhooks).
  exists w'. split; [exact Hinit | exact Hhooks].
Defined.

Lemma configReader_first_existing_example :
  "k0sctl.yaml" ≠ "-" ∧
  variants "k0sctl.yaml" = ["k0sctl.yaml"] ++ "k0sctl.yml" :: [] ∧
  Forall (fun c => os_Stat terminal_env c ≠ None) ["k0sctl.yaml"] ∧
  os_Stat terminal_env "k0sctl.yml" = None ∧
  ∃ w' : World,
    configReader terminal_env "k0sctl.yaml" fresh_world
    = (Returned (Some (OpenedFile "/work/k0sctl.yml"), None), w') ∧
    calls w' = [CallStat "k0sctl.yaml"; CallStat "k0sctl.yml";
                CallAbs "k0sctl.yml"; CallOpen "/work/k0sctl.yml"].
Proof.
  assert ("k0sctl.yaml" ≠ "-") as Hf by discriminate.
  assert (Forall (fun c => os_Stat terminal_env c ≠ None) ["k0sctl.yaml"])
    as Hskip by (constructor; [discriminate | constructor]).
  split; [exact Hf|]. split; [reflexivity|]. split; [exact Hskip|].
  split; [reflexivity|].
  destruct (configReader_first_existing terminal_env "k0sctl.yaml"
              ["k0sctl.yaml"] "k0sctl.yml" [] fresh_world
              Hf eq_refl Hskip eq_refl)
    as (_ & r & w' & Hrun & Hcalls & Hr).
  exists w'. split; [|exact Hcalls].
  rewrite Hr in Hrun. exact Hrun.
Defined.

Lemma configReader_stdin_example :
  Stdin_Stat terminal_env = inr (N.lor ModeCharDevice 400) ∧
  Stdin_Stat pipe_env = inr 400 ∧
  configReader terminal_env "-" fresh_world
  = (Returned (None, Some "can't read stdin"), record CallStdinStat fresh_world) ∧
  configReader pipe_env "-" fresh_world
  = (Returned (Some Stdin, None), record CallStdinStat fresh_world).
Proof.
  split; [reflexivity|]. split; [reflexivity|]. split.
  - refine (proj1 (proj2 (configReader_stdin terminal_env
                            (N.lor ModeCharDevice 400) fresh_world eq_refl) _)).
    discriminate.
  - exact (proj1 (configReader_stdin pipe_env 400 fresh_world eq_refl) eq_refl).
Defined.

Lemma configReader_stream_or_error_example :
  "k0sctl.yaml" ≠ "-" ∧
  Forall (fun c => os_Stat pipe_env c ≠ None) (variants "k0sctl.yaml") ∧
  ∃ w' : World,
    configReader pipe_env "k0sctl.yaml" fresh_world
    = (Returned (None, Some "failed to locate configuration"), w').
Proof.
  assert ("k0sctl.yaml" ≠ "-") as Hf by discriminate.
  assert (Forall (fun c => os_Stat pipe_env c ≠ None) (variants "k0sctl.yaml"))
    as Hnone by (repeat constructor; discriminate).
  split; [exact Hf|]. split; [exact Hnone|].
  exact (proj1 (configReader_stream_or_error pipe_env) "k0sctl.yaml"
           fresh_world Hf Hnone).
Defined.

(** * More examples *)

Lemma hooks_have_writers_fresh : hooks_have_writers fresh_world.
Proof. intros l h Hh. cbn in Hh. rewrite lookup_empty in Hh. inversion Hh. Defined.

Lemma LogFile_opens_pipe : LogFile_opens pipe_env.
Proof. split; reflexivity. Defined.

Lemma LogFile_fails_terminal : LogFile_fails terminal_env terminal_log_error.
Proof. right. split; [reflexivity|]. eexists. split; reflexivity. Defined.

Lemma screenLoggerHook_colors_example :
  Stdout_known terminal_env ∧
  ∃ w' : World,
    screenLoggerHook terminal_env InfoLevel fresh_world
    = (Returned (screen_hook Stdout true InfoLevel), w') ∧
    Colorize w' = true.
Proof.
  split; [exact Stdout_known_terminal|].
  destruct (screenLoggerHook_colors terminal_env InfoLevel fresh_world
              Stdout_known_terminal) as (w' & Heq & Hcolor & _).
  exists w'. split; [exact Heq | exact Hcolor].
Defined.

Lemma initLogging_Stat_error_panics_example :
  GOOS closed_env ≠ "windows" ∧
  ∃ (msg : string) (w' : World),
    initLogging closed_env ∅ fresh_world = (Panicked msg, w') ∧
    calls w' = [CallStdoutStat].
Proof.
  assert (GOOS closed_env ≠ "windows") as Hos by discriminate.
  split; [exact Hos|].
  destruct (initLogging_Stat_error_panics closed_env ∅ _ fresh_world
              Hos eq_refl) as (msg & w' & Heq & _ & _ & Hcalls).
  exists msg, w'. split; [exact Heq | exact Hcalls].
Defined.

Lemma initLogging_opens_example :
  Stdout_known pipe_env ∧
  LogFile_opens pipe_env ∧
  ∃ w' : World,
    initLogging pipe_env ∅ fresh_world = (Returned None, w') ∧
    rig_Log w' = Some StandardLogger ∧
    Level_ (std w') = TraceLevel.
Proof.
  split; [exact Stdout_known_pipe|]. split; [exact LogFile_opens_pipe|].
  destruct (initLogging_opens pipe_env ∅ fresh_world
              Stdout_known_pipe LogFile_opens_pipe)
    as (w' & Heq & Hstd & _ & Hrig & _).
  exists w'. split; [exact Heq|]. split; [exact Hrig|].
  rewrite Hstd. reflexivity.
Defined.

Lemma log_entry_after_initLogging_example :
  let w' := (initLogging pipe_env ∅ fresh_world).2 in
  let line := "msg=hello" +:+ newline in
  Hooks (std fresh_world) = ∅ ∧
  log_entry pipe_env (hello DebugLevel) w'
  = (Returned tt,
     record_all
       ((if decide (DebugLevel ≤ InfoLevel)
         then [CallWrite (screen_writer pipe_env) line] else [])
        ++ (if decide (DebugLevel ≤ DebugLevel)
            then [CallWrite (FileWriter (log_file_name pipe_env)) line]
            else []))
       w').
Proof.
  intros w' line. split; [reflexivity|].
  assert (DebugLevel ≤ TraceLevel) as Hl by (unfold DebugLevel, TraceLevel; lia).
  exact (log_entry_after_initLogging pipe_env ∅ fresh_world (hello DebugLevel)
           line line Stdout_known_pipe LogFile_opens_pipe eq_refl Hl
           eq_refl eq_refl eq_refl eq_refl).
Defined.

Lemma initSilentLogging_verbose_example :
  let ctx : gmap string bool := {["debug" := true]} in
  ctx_Bool ctx "trace" || ctx_Bool ctx "debug" = true ∧
  initSilentLogging terminal_env ctx fresh_world
  = initLogging terminal_env ctx fresh_world.
Proof.
  intros ctx.
  assert (ctx_Bool ctx "trace" || ctx_Bool ctx "debug" = true) as H
    by reflexivity.
  split; [exact H|].
  exact (initSilentLogging_verbose terminal_env ctx fresh_world
           Stdout_known_terminal H).
Defined.

Lemma initLogging_hooks_have_writers_example :
  hooks_have_writers fresh_world ∧
  hooks_have_writers (initLogging terminal_env ∅ fresh_world).2.
Proof.
  split; [exact hooks_have_writers_fresh|].
  exact (proj1 (initLogging_hooks_have_writers terminal_env ∅ fresh_world
                  Stdout_known_terminal hooks_have_writers_fresh)).
Defined.


Lemma configReader_no_fallback_example :
  "cluster.yaml" ≠ "-" ∧
  "cluster.yaml" ≠ "k0sctl.yaml" ∧
  os_Stat terminal_env "cluster.yaml" ≠ None ∧
  configReader terminal_env "cluster.yaml" fresh_world
  = (Returned (None, Some "failed to locate configuration"),
     record (CallStat "cluster.yaml") fresh_world).
Proof.
  assert ("cluster.yaml" ≠ "-") as H1 by discriminate.
  assert ("cluster.yaml" ≠ "k0sctl.yaml") as H2 by discriminate.
  assert (os_Stat terminal_env "cluster.yaml" ≠ None) as H3 by discriminate.
  split; [exact H1|]. split; [exact H2|]. split; [exact H3|].
  exact (configReader_no_fallback terminal_env "cluster.yaml" fresh_world
           H1 H2 H3).
Defined.

Lemma initConfig_closes_what_it_opens_example :
  "k0sctl.yaml" ≠ EmptyString ∧
  ∃ (r : option Error) (p' : Process),
    initConfig terminal_env sample_deps fresh_process = (Returned r, p') ∧
    io_calls p' = [CallReadAll (OpenedFile "/work/k0sctl.yml");
                   CallClose (OpenedFile "/work/k0sctl.yml")].
Proof.
  assert ("k0sctl.yaml" ≠ EmptyString) as Hne by discriminate.
  split; [exact Hne|].
  destruct (initConfig_closes_what_it_opens terminal_env sample_deps
              fresh_process "k0sctl.yaml" eq_refl Hne)
    as (r & p' & Heq & _ & Hio).
  exists r, p'. split; [exact Heq | exact Hio].
Defined.

Lemma initConfig_loads_example :
  let opened :=
    record_all [CallStat "k0sctl.yaml"; CallStat "k0sctl.yml";
                CallAbs "k0sctl.yml"; CallOpen "/work/k0sctl.yml"]
      fresh_world in
  configReader terminal_env "k0sctl.yaml" (world fresh_process)
  = (Returned (Some (OpenedFile "/work/k0sctl.yml"), None), opened) ∧
  ∃ p' : Process,
    initConfig terminal_env sample_deps fresh_process = (Returned None, p') ∧
    Context_String "config" p' = (Returned sample_document, p').
Proof.
  intros opened.
  assert (configReader terminal_env "k0sctl.yaml" (world fresh_process)
          = (Returned (Some (OpenedFile "/work/k0sctl.yml"), None), opened))
    as Hopen by reflexivity.
  assert ("k0sctl.yaml" ≠ EmptyString) as Hne by discriminate.
  split; [exact Hopen|].
  destruct (initConfig_loads terminal_env sample_deps fresh_process
              "k0sctl.yaml" _ opened sample_document
              eq_refl Hne Hopen eq_refl eq_refl)
    as (p' & Heq & Hread & _).
  exists p'. split; [exact Heq | exact Hread].
Defined.

Lemma initConfig_default_falls_back_example :
  os_Stat terminal_env "k0sctl.yaml" ≠ None ∧
  os_Stat terminal_env "k0sctl.yml" = None ∧
  ∃ p' : Process,
    initConfig terminal_env sample_deps fresh_process = (Returned None, p') ∧
    ctx_Strings p' !! "config" = Some sample_document.
Proof.
  assert (os_Stat terminal_env "k0sctl.yaml" ≠ None) as Hyaml by discriminate.
  split; [exact Hyaml|]. split; [reflexivity|].
  destruct (initConfig_default_falls_back terminal_env sample_deps
              fresh_process "/work/k0sctl.yml" sample_document
              eq_refl Hyaml eq_refl eq_refl eq_refl eq_refl eq_refl)
    as (p' & Heq & Hflag & _).
  exists p'. split; [exact Heq | exact Hflag].
Defined.

Lemma initAnalytics_client_example :
  hooks_have_writers (world fresh_process) ∧
  ∃ (r : option Error) (p' : Process),
    initAnalytics terminal_env sample_deps fresh_process = (Returned r, p') ∧
    ctx_Strings p' = ctx_Strings fresh_process.
Proof.
  split; [exact hooks_have_writers_fresh|].
  destruct (initAnalytics_client terminal_env sample_deps fresh_process
              hooks_have_writers_fresh) as (r & p' & Heq & _ & Hstrings & _).
  exists r, p'. split; [exact Heq | exact Hstrings].
Defined.

Lemma initConfig_stdin_example :
  ctx_Strings stdin_process !! "config" = Some "-" ∧
  (∃ (r : option Error) (p' : Process),
     initConfig pipe_env sample_deps stdin_process = (Returned r, p') ∧
     world p' = record CallStdinStat fresh_world) ∧
  (∃ (r : option Error) (p' : Process),
     initConfig terminal_env sample_deps stdin_process = (Returned r, p') ∧
     world p' = record CallStdinStat fresh_world).
Proof.
  assert (ctx_Strings stdin_process !! "config" = Some "-") as H by reflexivity.
  split; [exact H|]. split.
  - destruct (initConfig_stdin pipe_env sample_deps stdin_process H)
      as (r & p' & Heq & Hworld & _).
    exists r, p'. split; [exact Heq | exact Hworld].
  - destruct (initConfig_stdin terminal_env sample_deps stdin_process H)
      as (r & p' & Heq & Hworld & _).
    exists r, p'. split; [exact Heq | exact Hworld].
Defined.

Lemma actions_stop_at_initLogging_example :
  LogFile_fails terminal_env terminal_log_error ∧
  ∃ p' : Process,
    actions [initLogging_action terminal_env;
             initConfig terminal_env sample_deps] fresh_process
    = (Returned (Some terminal_log_error), p') ∧
    io_calls p' = [].
Proof.
  split; [exact LogFile_fails_terminal|].
  destruct (actions_stop_at_initLogging terminal_env
              [initConfig terminal_env sample_deps] fresh_process
              terminal_log_error Stdout_known_terminal LogFile_fails_terminal)
    as (p' & Heq & _ & _ & _ & Hio).
  exists p'. split; [exact Heq | exact Hio].
Defined.

Lemma initConfig_keeps_context_example :
  default EmptyString (ctx_Strings bare_process !! "config") = EmptyString ∧
  initConfig terminal_env sample_deps bare_process = (Returned None, bare_process).
Proof.
  assert (default EmptyString (ctx_Strings bare_process !! "config")
          = EmptyString) as H by reflexivity.
  split; [exact H|].
  exact (proj1 (initConfig_keeps_context terminal_env sample_deps bare_process) H).
Defined.
